(** * The request panel of static/script.js

    A shallow embedding of the click handler that [static/script.js] installs
    on the [calc-btn] button, and the properties of one request cycle:
    busy-state reset, POST to [/assess], display update or notification, and
    the cleanup of the [finally] block.

    The handler is a straight-line program over the DOM with one [try] /
    [catch] / [finally]; it is embedded in a state-and-exception monad whose
    state is the element heap together with the log of every effect the
    handler performs, in program order.

    What the model takes from the environment: the answer of the network to
    the request, the printing and the truthiness of numbers, and that no
    other script writes to the ten elements while the request is pending,
    so that the handler resumes after its [await] on the document it left.

    What the model leaves out of the DOM.  An element property holds the
    string that was assigned to it; the normalisation a browser applies
    when it parses markup is not modelled.  In a browser [innerText] and
    [innerHTML] are two views of the same children, and a write through
    one changes what the other returns.  Here they are two strings and a
    write through one keeps the other, which from then on is stale.  What
    an element shows after the handler wrote its content is therefore
    stated through the property the handler wrote it with (the text of
    the button and of the summary elements, the markup of the results
    display), and no conclusion is drawn from a stale field.  There is no
    element tree either: the ten elements the script looks up are taken
    not to contain one another, and nothing is said of any other element
    of the page. *)

From Stdlib Require Import Ascii String.
From stdpp Require Import gmap strings list fin_maps pretty.

Set Default Proof Using "Type".

(** ** JavaScript values *)

(** The values [response.json()] can produce.  [number] is the type of
    JavaScript numbers; the handler only converts numbers to strings and
    tests them for truthiness, so both operations are taken as parameters
    ([Number_toString], [Number_toBoolean]) instead of fixing a model of
    IEEE doubles.  [VObject] lists the own properties of a parsed object,
    each key once. *)
#[warnings="-register-all"]
Inductive jsvalue (number : Type) : Type :=
  | VUndefined
  | VNull
  | VBool (b : bool)
  | VNumber (n : number)
  | VString (s : string)
  | VArray (elems : list (jsvalue number))
  | VObject (props : list (string * jsvalue number)).

Arguments VUndefined {number}.
Arguments VNull {number}.
Arguments VBool {number} b.
Arguments VNumber {number} n.
Arguments VString {number} s.
Arguments VArray {number} elems.
Arguments VObject {number} props.

(** What a JavaScript [throw] carries.  [TypeError] is the engine's own error
    (property access on [null] or [undefined], no primitive value for an
    object); [Rejected] is the reason the environment rejects a promise with
    ([fetch] on a network failure, [response.json()] on a body that is not
    JSON). *)
Inductive exn : Type :=
  | TypeError
  | Rejected (name message : string).

(** Completion of an evaluation: a value, or an abrupt completion. *)
Inductive outcome (A : Type) : Type :=
  | Return (a : A)
  | Throw (e : exn).

Arguments Return {A} a.
Arguments Throw {A} e.

Fixpoint lookup_prop {V : Type} (props : list (string * V)) (key : string) : option V :=
  match props with
  | [] => None
  | (k, v) :: rest => if String.eqb key k then Some v else lookup_prop rest key
  end.

Definition has_own {V : Type} (props : list (string * V)) (key : string) : bool :=
  match lookup_prop props key with Some _ => true | None => false end.

Section Values.
Context {number : Type}.
Variable Number_toString : number → string.
Variable Number_toBoolean : number → bool.

(** [v.key] for a key that no prototype defines (the handler reads
    [error], [weather_summary], [result] and the six summary fields):
    [null] and [undefined] throw, an object answers with its own property,
    anything else with [undefined]. *)
Definition Get (v : jsvalue number) (key : string) : outcome (jsvalue number) :=
  match v with
  | VUndefined | VNull => Throw TypeError
  | VObject props =>
      Return (match lookup_prop props key with Some x => x | None => VUndefined end)
  | _ => Return VUndefined
  end.

(** The truthiness test of [if (data.error)]. *)
Definition ToBoolean (v : jsvalue number) : bool :=
  match v with
  | VUndefined | VNull => false
  | VBool b => b
  | VNumber n => Number_toBoolean n
  | VString s => negb (String.eqb s "")
  | VArray _ | VObject _ => true
  end.

(** The string that [v + "..."] and [alert] see.  An array joins its
    elements with commas ([null] and [undefined] elements are empty); a
    parsed object prints as [[object Object]] unless an own [toString]
    property, which is never callable in parsed JSON, shadows the inherited
    method, in which case no primitive value exists and the conversion
    throws. *)
Fixpoint ToString (v : jsvalue number) : outcome string :=
  match v with
  | VUndefined => Return "undefined"
  | VNull => Return "null"
  | VBool true => Return "true"
  | VBool false => Return "false"
  | VNumber n => Return (Number_toString n)
  | VString s => Return s
  | VArray elems =>
      (fix join (l : list (jsvalue number)) : outcome string :=
         match l with
         | [] => Return ""
         | x :: rest =>
             let hd := match x with
                       | VUndefined | VNull => Return ""
                       | _ => ToString x
                       end in
             match hd with
             | Throw e => Throw e
             | Return s =>
                 match rest with
                 | [] => Return s
                 | _ :: _ =>
                     match join rest with
                     | Throw e => Throw e
                     | Return r => Return (s +:+ "," +:+ r)
                     end
                 end
             end
         end) elems
  | VObject props =>
      if has_own props "toString" then Throw TypeError
      else Return "[object Object]"
  end.

(** The conversion of a value assigned to [innerHTML]: [null] becomes the
    empty string, everything else goes through [ToString]. *)
Definition ToDOMString_null_empty (v : jsvalue number) : outcome string :=
  match v with
  | VNull => Return ""
  | _ => ToString v
  end.

(** [v + suffix] and [prefix + v] with a string on the other side. *)
Definition concat_right (v : jsvalue number) (suffix : string) : outcome string :=
  match ToString v with
  | Return s => Return (s +:+ suffix)
  | Throw e => Throw e
  end.

Definition concat_left (prefix : string) (v : jsvalue number) : outcome string :=
  match ToString v with
  | Return s => Return (prefix +:+ s)
  | Throw e => Throw e
  end.
End Values.

(** ** The serialised request body *)

(** The object literal [{ city: citySelect.value }]. *)
Record payload : Type := { city : string }.

Definition hex_digit (n : nat) : ascii :=
  nth n (list_ascii_of_string "0123456789abcdef") "0"%char.

(** One code unit of a JSON string literal: the two-character escapes, a
    [\u00xx] escape for the other control characters, the character itself
    otherwise. *)
Definition quote_char (c : ascii) : string :=
  let n := nat_of_ascii c in
  if Nat.eqb n 8 then "\b"
  else if Nat.eqb n 9 then "\t"
  else if Nat.eqb n 10 then "\n"
  else if Nat.eqb n 12 then "\f"
  else if Nat.eqb n 13 then "\r"
  else if Nat.eqb n 34 then String "\"%char (String "034"%char "")
  else if Nat.eqb n 92 then "\\"
  else if Nat.ltb n 32 then
    "\u00" +:+ String (hex_digit (n / 16)) (String (hex_digit (n mod 16)) "")
  else String c "".

Fixpoint quote_chars (s : string) : string :=
  match s with
  | EmptyString => ""
  | String c rest => quote_char c +:+ quote_chars rest
  end.

Definition QuoteJSONString (s : string) : string :=
  String "034"%char (quote_chars s +:+ String "034"%char "").

(** [JSON.stringify(payload)]. *)
Definition JSON_stringify (p : payload) : string :=
  "{" +:+ QuoteJSONString "city" +:+ ":" +:+ QuoteJSONString (city p) +:+ "}".

(** A character that a JSON string literal holds as it is. *)
Definition plain (c : ascii) : bool :=
  let n := nat_of_ascii c in
  Nat.leb 32 n && negb (Nat.eqb n 34) && negb (Nat.eqb n 92).

Fixpoint plain_string (s : string) : bool :=
  match s with
  | EmptyString => true
  | String c rest => plain c && plain_string rest
  end.

(** [s] between double quotes. *)
Definition quoted (s : string) : string := String "034" (s +:+ String "034" "").

(** ** The document *)

(** The properties of an element that the handler reads or writes, each
    holding what was last assigned to it.  The model does not derive
    [innerText] and [innerHTML] from one another: a write through one of
    them keeps the other field, which is then stale, not what its getter
    would return. *)
Record element : Type := {
    innerText : string;
    innerHTML : string;
    disabled : bool;
    classList : list string;
    value : string;
  }.

Definition with_innerText (s : string) (el : element) : element :=
  {| innerText := s; innerHTML := innerHTML el; disabled := disabled el;
     classList := classList el; value := value el |}.

Definition with_innerHTML (s : string) (el : element) : element :=
  {| innerText := innerText el; innerHTML := s; disabled := disabled el;
     classList := classList el; value := value el |}.

Definition with_disabled (b : bool) (el : element) : element :=
  {| innerText := innerText el; innerHTML := innerHTML el; disabled := b;
     classList := classList el; value := value el |}.

Definition with_classList (f : list string → list string) (el : element) : element :=
  {| innerText := innerText el; innerHTML := innerHTML el; disabled := disabled el;
     classList := f (classList el); value := value el |}.

(** [classList.add] and [classList.remove] on an ordered token set. *)
Definition token_add (tok : string) (toks : list string) : list string :=
  if bool_decide (tok ∈ toks) then toks else toks ++ [tok].

Definition token_remove (tok : string) (toks : list string) : list string :=
  filter (λ t, t ≠ tok) toks.

Definition is_hidden (el : element) : Prop := "hidden" ∈ classList el.

(** The argument of [fetch]. *)
Record request : Type := {
    url : string;
    method : string;
    headers : list (string * string);
    body : string;
  }.

(** Every effect of the handler, as it appears in the log. *)
Inductive event : Type :=
  | SetInnerText (id text : string)
  | SetDisabled (id : string) (b : bool)
  | ClassListAdd (id token : string)
  | ClassListRemove (id token : string)
  | SetInnerHTML (id markup : string)
  | ScrollIntoView (id behavior block : string)
  | Fetch (req : request)
  | Alert (message : string)
  | ConsoleError (label : string) (e : exn).

#[export] Instance exn_eq_dec : EqDecision exn.
Proof. solve_decision. Defined.

#[export] Instance request_eq_dec : EqDecision request.
Proof. solve_decision. Defined.

#[export] Instance event_eq_dec : EqDecision event.
Proof. solve_decision. Defined.

(** The elements the script looked up when the page loaded, by id.  An id
    without an entry is one for which [document.getElementById] returned
    [null].  Distinct ids name distinct elements, taken not to be nested
    in one another, so writes through one handle never show through
    another. *)
Abbreviation heap := (gmap string element).

Definition apply_event (ev : event) (h : heap) : heap :=
  match ev with
  | SetInnerText id s => alter (with_innerText s) id h
  | SetDisabled id b => alter (with_disabled b) id h
  | ClassListAdd id tok => alter (with_classList (token_add tok)) id h
  | ClassListRemove id tok => alter (with_classList (token_remove tok)) id h
  | SetInnerHTML id s => alter (with_innerHTML s) id h
  | ScrollIntoView _ _ _ | Fetch _ | Alert _ | ConsoleError _ _ => h
  end.

Definition replay (evs : list event) (h : heap) : heap :=
  foldl (λ h ev, apply_event ev h) h evs.

(** ** The effect monad *)

Record state : Type := { doc : heap; log : list event }.

Definition M (A : Type) : Type := state → outcome A * state.

Definition ret {A} (a : A) : M A := λ s, (Return a, s).

Definition bind {A B} (m : M A) (k : A → M B) : M B :=
  λ s, match m s with
       | (Return a, s') => k a s'
       | (Throw e, s') => (Throw e, s')
       end.

Definition throw {A} (e : exn) : M A := λ s, (Throw e, s).

Definition lift {A} (o : outcome A) : M A := λ s, (o, s).

Definition emit (ev : event) : M unit :=
  λ s, (Return tt, {| doc := apply_event ev (doc s); log := log s ++ [ev] |}).

Notation "x <~ m ;; k" := (bind m (λ x, k))
  (at level 100, m at next level, k at level 200, right associativity, only parsing).

(** [try { body } catch (e) { handler e } finally { cleanup }]: the cleanup
    runs after the body or the handler, whichever finished last, and its own
    abrupt completion replaces theirs. *)
Definition try_catch_finally {A} (body : M A) (handler : exn → M A) (cleanup : M unit) : M A :=
  λ s,
    let '(r, s1) := match body s with
                    | (Return a, s1) => (Return a, s1)
                    | (Throw e, s1) => handler e s1
                    end in
    match cleanup s1 with
    | (Return _, s2) => (r, s2)
    | (Throw e, s2) => (Throw e, s2)
    end.

(** A handle is the id it was looked up with; dereferencing a [null] handle
    throws. *)
Definition exists_ (id : string) : M bool :=
  λ s, (Return (bool_decide (is_Some (doc s !! id))), s).

Definition write (id : string) (ev : event) : M unit :=
  present <~ exists_ id ;;
  if present then emit ev else throw TypeError.

Definition set_innerText (id s : string) : M unit := write id (SetInnerText id s).
Definition set_disabled (id : string) (b : bool) : M unit := write id (SetDisabled id b).
Definition set_innerHTML (id s : string) : M unit := write id (SetInnerHTML id s).
Definition classList_add (id tok : string) : M unit := write id (ClassListAdd id tok).
Definition classList_remove (id tok : string) : M unit := write id (ClassListRemove id tok).
Definition scrollIntoView (id behavior block : string) : M unit :=
  write id (ScrollIntoView id behavior block).

Definition get_value (id : string) : M string :=
  λ s, match doc s !! id with
       | Some el => (Return (value el), s)
       | None => (Throw TypeError, s)
       end.

Definition alert (message : string) : M unit := emit (Alert message).
Definition console_error (label : string) (e : exn) : M unit := emit (ConsoleError label e).

(** ** The handler *)

(** The handles bound when the page loaded. *)
Definition calcBtn : string := "calc-btn".
Definition resultArea : string := "result-area".
Definition citySelect : string := "city".
Definition resultDisplay : string := "result-display".
Definition wTemp : string := "w-temp".
Definition wHum : string := "w-hum".
Definition wDew : string := "w-dew".
Definition wWind : string := "w-wind".
Definition wVis : string := "w-vis".
Definition wPres : string := "w-pres".

(** What [response.json()] settles with, and what [fetch] settles with. *)
Inductive response (number : Type) : Type :=
  | JsonBody (data : jsvalue number)
  | BadBody (e : exn).

Arguments JsonBody {number} data.
Arguments BadBody {number} e.

Inductive fetch_result (number : Type) : Type :=
  | Resolves (r : response number)
  | Rejects (e : exn).

Arguments Resolves {number} r.
Arguments Rejects {number} e.

Definition busy_label : string := "Connecting to Satellite...".
Definition idle_label : string := "Analyze Satellite Data".
Definition connection_failed : string :=
  "Connection Failed. Please check internet connection.".

Section Handler.
Context {number : Type}.
Variable Number_toString : number → string.
Variable Number_toBoolean : number → bool.
(** The network and the service behind [/assess]. *)
Variable server : request → fetch_result number.

Definition fetch (req : request) : M (response number) :=
  _ <~ emit (Fetch req) ;;
  match server req with
  | Resolves r => ret r
  | Rejects e => throw e
  end.

Definition json (r : response number) : M (jsvalue number) :=
  match r with
  | JsonBody data => ret data
  | BadBody e => throw e
  end.

(** Lines 17 to 20. *)
Definition busy_reset : M unit :=
  _ <~ set_innerText calcBtn busy_label ;;
  _ <~ set_disabled calcBtn true ;;
  _ <~ classList_add resultArea "hidden" ;;
  set_innerHTML resultDisplay "".

(** [if (w) w.innerText = data.weather_summary.key + suffix;] *)
Definition update_field (w key suffix : string) (data : jsvalue number) : M unit :=
  present <~ exists_ w ;;
  if present then
    summary <~ lift (Get data "weather_summary") ;;
    x <~ lift (Get summary key) ;;
    text <~ lift (concat_right Number_toString x suffix) ;;
    set_innerText w text
  else ret tt.

(** Lines 37 to 42, the guarded updates of the six summary fields. *)
Definition inject_summary (data : jsvalue number) : M unit :=
  _ <~ update_field wTemp "temp" "°C" data ;;
  _ <~ update_field wHum "rh" "%" data ;;
  _ <~ update_field wDew "dew" "°C" data ;;
  _ <~ update_field wWind "wind" " km/h" data ;;
  _ <~ update_field wVis "vis" " km" data ;;
  update_field wPres "pressure" " hPa" data.

(** Lines 45 to 49. *)
Definition show_results (data : jsvalue number) : M unit :=
  result <~ lift (Get data "result") ;;
  markup <~ lift (ToDOMString_null_empty Number_toString result) ;;
  _ <~ set_innerHTML resultDisplay markup ;;
  _ <~ classList_remove resultArea "hidden" ;;
  scrollIntoView resultArea "smooth" "start".

(** Line 34. *)
Definition show_error (data : jsvalue number) : M unit :=
  err <~ lift (Get data "error") ;;
  message <~ lift (concat_left Number_toString "Alert: " err) ;;
  alert message.

(** The second argument of [fetch]'s call, lines 25 to 29. *)
Definition assess_request (p : payload) : request :=
  {| url := "/assess";
     method := "POST";
     headers := [("Content-Type", "application/json")];
     body := JSON_stringify p |}.

(** Lines 25 to 50, the body of the [try]. *)
Definition try_block (p : payload) : M unit :=
  response <~ fetch (assess_request p) ;;
  data <~ json response ;;
  err <~ lift (Get data "error") ;;
  if ToBoolean Number_toBoolean err then show_error data
  else _ <~ inject_summary data ;; show_results data.

(** Lines 53 and 54. *)
Definition catch_block (error : exn) : M unit :=
  _ <~ console_error "Fetch error:" error ;;
  alert connection_failed.

(** Lines 57 and 58. *)
Definition finally_block : M unit :=
  _ <~ set_innerText calcBtn idle_label ;;
  set_disabled calcBtn false.

(** The click listener of [calcBtn], lines 15 to 60. *)
Definition click : M unit :=
  _ <~ busy_reset ;;
  selected <~ get_value citySelect ;;
  let payload := {| city := selected |} in
  try_catch_finally (try_block payload) catch_block finally_block.

(** One click on a page whose elements are [h]. *)
Definition run (h : heap) : outcome unit * state :=
  click {| doc := h; log := [] |}.
End Handler.

(** ** Observations on a run *)

(** The state reached from [s] by performing [evs] in order. *)
Definition extend (s : state) (evs : list event) : state :=
  {| doc := replay evs (doc s); log := log s ++ evs |}.

Definition present (id : string) (h : heap) : Prop := is_Some (h !! id).

(** The notifications, the requests and the diagnostics of a log. *)
Definition alerts (evs : list event) : list string :=
  omap (λ ev, match ev with Alert m => Some m | _ => None end) evs.

Definition fetches (evs : list event) : list request :=
  omap (λ ev, match ev with Fetch r => Some r | _ => None end) evs.

Definition logged_errors (evs : list event) : list (string * exn) :=
  omap (λ ev, match ev with ConsoleError l e => Some (l, e) | _ => None end) evs.

(** The writes of lines 17 to 20 and of lines 57 and 58. *)
Definition reset_events : list event :=
  [SetInnerText calcBtn busy_label; SetDisabled calcBtn true;
   ClassListAdd resultArea "hidden"; SetInnerHTML resultDisplay ""].

Definition restore_events : list event :=
  [SetInnerText calcBtn idle_label; SetDisabled calcBtn false].

Definition reveal_events (markup : string) : list event :=
  [SetInnerHTML resultDisplay markup; ClassListRemove resultArea "hidden";
   ScrollIntoView resultArea "smooth" "start"].

Definition catch_events (e : exn) : list event :=
  [ConsoleError "Fetch error:" e; Alert connection_failed].

(** The state in which the [try] is entered on a page [h]: the reset is
    done and nothing else. *)
Definition at_try (h : heap) : state :=
  extend {| doc := h; log := [] |} reset_events.

(** The event of a guarded update of a summary field: the write when the
    element exists, nothing when it does not. *)
Definition field_event (h : heap) (w text : string) : list event :=
  if bool_decide (is_Some (h !! w)) then [SetInnerText w text] else [].

(** The element an event writes to, if it writes. *)
Definition target (ev : event) : option string :=
  match ev with
  | SetInnerText id _ | SetDisabled id _ | ClassListAdd id _
  | ClassListRemove id _ | SetInnerHTML id _ => Some id
  | ScrollIntoView _ _ _ | Fetch _ | Alert _ | ConsoleError _ _ => None
  end.

(** The idle and the busy state of the control. *)
Definition idle (el : element) : Prop :=
  disabled el = false ∧ innerText el = idle_label.

Definition busy (el : element) : Prop :=
  disabled el = true ∧ innerText el = busy_label.

(** The six summary fields: handle, key in [weather_summary], unit. *)
Definition summary_fields : list (string * string * string) :=
  [(wTemp, "temp", "°C"); (wHum, "rh", "%"); (wDew, "dew", "°C");
   (wWind, "wind", " km/h"); (wVis, "vis", " km"); (wPres, "pressure", " hPa")].

Definition summary_ids : list string := summary_fields.*1.*1.

(** A write of the text of one of the six summary elements. *)
Definition field_write (ev : event) : Prop :=
  ∃ w text, ev = SetInnerText w text ∧ w ∈ summary_ids.

(** A write that puts the control back to idle. *)
Definition restores (ev : event) : Prop :=
  ev = SetInnerText calcBtn idle_label ∨ ev = SetDisabled calcBtn false.

(** A write that reveals the results container. *)
Definition reveals (ev : event) : Prop :=
  ev = ClassListRemove resultArea "hidden".

(** The three ways a request cycle ends. *)
Inductive path : Type :=
  | ServerError (message : string)
  | Success (markup : string)
  | Failure (e : exn).

Section Cycle.
Context {number : Type}.
Variable Number_toString : number → string.
Variable Number_toBoolean : number → bool.

(** What the [catch] block receives when the body of the [try] throws:
    the reason of the rejected [fetch] or [response.json()], before any
    write, or an error of the engine once the body was parsed. *)
Definition thrown (answer : fetch_result number) (e : exn) (writes : list event) : Prop :=
  match answer with
  | Rejects e' => e = e' ∧ writes = []
  | Resolves (BadBody e') => e = e' ∧ writes = []
  | Resolves (JsonBody _) => True
  end.

(** [cycle answer p evs]: after the request was answered with [answer],
    the handler took path [p] and performed [evs] between the request and
    the cleanup. *)
Inductive cycle (answer : fetch_result number) : path → list event → Prop :=
  | cycle_error data err message :
      answer = Resolves (JsonBody data) →
      Get data "error" = Return err →
      ToBoolean Number_toBoolean err = true →
      ToString Number_toString err = Return message →
      cycle answer (ServerError message) [Alert ("Alert: " +:+ message)]
  | cycle_success data err writes markup :
      answer = Resolves (JsonBody data) →
      Get data "error" = Return err →
      ToBoolean Number_toBoolean err = false →
      Forall field_write writes →
      cycle answer (Success markup) (writes ++ reveal_events markup)
  | cycle_failure writes e :
      Forall field_write writes →
      thrown answer e writes →
      cycle answer (Failure e) (writes ++ catch_events e).

(** A success response as the service documents it: no [error], a
    [weather_summary] with six numbers and a [result] string. *)
Record well_formed (data : jsvalue number)
      (temp rh dew wind vis pressure : number) (markup : string) : Prop := {
    wf_error : Get data "error" = Return VUndefined;
    wf_summary : ∃ summary,
      Get data "weather_summary" = Return summary ∧
      Get summary "temp" = Return (VNumber temp) ∧
      Get summary "rh" = Return (VNumber rh) ∧
      Get summary "dew" = Return (VNumber dew) ∧
      Get summary "wind" = Return (VNumber wind) ∧
      Get summary "vis" = Return (VNumber vis) ∧
      Get summary "pressure" = Return (VNumber pressure);
    wf_result : Get data "result" = Return (VString markup);
  }.

(** The events and the writes of lines 37 to 42 for a well-formed
    summary, in the order of the script. *)
Definition summary_events (h : heap) (temp rh dew wind vis pressure : number) : list event :=
  field_event h wTemp (Number_toString temp +:+ "°C") ++
  field_event h wHum (Number_toString rh +:+ "%") ++
  field_event h wDew (Number_toString dew +:+ "°C") ++
  field_event h wWind (Number_toString wind +:+ " km/h") ++
  field_event h wVis (Number_toString vis +:+ " km") ++
  field_event h wPres (Number_toString pressure +:+ " hPa").

Definition summary_writes (temp rh dew wind vis pressure : number) (h : heap) : heap :=
  alter (with_innerText (Number_toString pressure +:+ " hPa")) wPres
    (alter (with_innerText (Number_toString vis +:+ " km")) wVis
       (alter (with_innerText (Number_toString wind +:+ " km/h")) wWind
          (alter (with_innerText (Number_toString dew +:+ "°C")) wDew
             (alter (with_innerText (Number_toString rh +:+ "%")) wHum
                (alter (with_innerText (Number_toString temp +:+ "°C")) wTemp h))))).
End Cycle.

(** [shown h h' w text]: the element [w] of the page [h], if it has one,
    holds the text [text] in [h']; if it has none, neither has [h']. *)
Definition shown (h h' : heap) (w text : string) : Prop :=
  match h !! w with
  | Some _ => ∃ el', h' !! w = Some el' ∧ innerText el' = text
  | None => h' !! w = None
  end.

(** [emits P m]: whatever [m] does from a state is a list of events that
    all satisfy [P], and the document it leaves is that list replayed. *)
Definition emits (P : event → Prop) {A} (m : M A) : Prop :=
  ∀ s r s', m s = (r, s') → ∃ evs, s' = extend s evs ∧ Forall P evs.

(** ** Sample pages and responses *)

Definition blank : element :=
  {| innerText := ""; innerHTML := ""; disabled := false; classList := []; value := "" |}.

Definition city_select (selected : string) : element :=
  {| innerText := ""; innerHTML := ""; disabled := false; classList := [];
     value := selected |}.

(** A page with every element, still showing the result of an earlier
    request. *)
Definition sample_page : heap :=
  list_to_map
    [(calcBtn, with_innerText idle_label blank);
     (resultArea, with_classList (λ _, ["card"]) blank);
     (citySelect, city_select "Paris");
     (resultDisplay, with_innerHTML "<p>Rain</p>" blank);
     (wTemp, blank); (wHum, blank); (wDew, blank);
     (wWind, blank); (wVis, blank); (wPres, blank)].

(** The same page before any request: container hidden, display empty. *)
Definition fresh_page : heap :=
  <[resultArea := with_classList (λ _, ["card"; "hidden"]) blank]>
    (<[resultDisplay := blank]> sample_page).

Definition page_without_area : heap := delete resultArea sample_page.
Definition page_without_display : heap := delete resultDisplay sample_page.
Definition page_without_city : heap := delete citySelect sample_page.
Definition page_without_humidity : heap := delete wHum sample_page.

(** Integers as sample numbers, printed in decimal. *)
Definition sample_toString : Z → string := pretty.
Definition sample_toBoolean (z : Z) : bool := negb (Z.eqb z 0).

Definition clear_response : jsvalue Z :=
  VObject
    [("weather_summary",
      VObject [("temp", VNumber 20%Z); ("rh", VNumber 50%Z); ("dew", VNumber 10%Z);
               ("wind", VNumber 5%Z); ("vis", VNumber 10%Z);
               ("pressure", VNumber 1012%Z)]);
     ("result", VString "<p>Clear</p>")].

Definition not_found_response : jsvalue Z :=
  VObject [("error", VString "city not found")].

Definition empty_error_response : jsvalue Z :=
  VObject [("error", VString "")].

Definition offline : fetch_result Z := Rejects (Rejected "TypeError" "Failed to fetch").

Definition answers (a : fetch_result Z) : request → fetch_result Z := λ _, a.

Definition sample_run (a : fetch_result Z) (h : heap) : outcome unit * state :=
  run sample_toString sample_toBoolean (answers a) h.

(** ** What the handler may write *)

(** The writes the script contains: the two labels and the disabled flag
    of the button, the [hidden] class of the results container and its
    scroll, the markup of the results display and the text of the six
    summary elements. *)
Definition well_targeted (ev : event) : Prop :=
  match ev with
  | SetInnerText id text =>
      (id = calcBtn ∧ (text = busy_label ∨ text = idle_label)) ∨ id ∈ summary_ids
  | SetDisabled id _ => id = calcBtn
  | ClassListAdd id tok | ClassListRemove id tok => id = resultArea ∧ tok = "hidden"
  | SetInnerHTML id _ => id = resultDisplay
  | ScrollIntoView id behavior block =>
      id = resultArea ∧ behavior = "smooth" ∧ block = "start"
  | Fetch _ | Alert _ | ConsoleError _ _ => True
  end.

(** The ten handles the script binds when the page loads. *)
Definition handles : list string :=
  calcBtn :: resultArea :: citySelect :: resultDisplay :: summary_ids.

(** [kept id el el']: what the element [el] behind the handle [id] keeps
    of its flag and of its classes when the handler turns it into [el']. *)
Definition kept (id : string) (el el' : element) : Prop :=
  (id ≠ calcBtn → disabled el' = disabled el) ∧
  (id ≠ resultArea → classList el' = classList el) ∧
  (∀ tok, tok ≠ "hidden" → tok ∈ classList el' ↔ tok ∈ classList el).

(** ** Summary fields of any kind *)

Section Texts.
Context {number : Type}.
Variable Number_toString : number → string.

(** [printable data key text]: [data.weather_summary.key] evaluates
    without throwing and prints as [text]. *)
Definition printable (data : jsvalue number) (key text : string) : Prop :=
  ∃ summary x,
    Get data "weather_summary" = Return summary ∧
    Get summary key = Return x ∧
    ToString Number_toString x = Return text.

(** The guarded update of line 37 to 42 for element [w] goes through:
    the element is absent, or its field is printable. *)
Definition field_ok (h : heap) (data : jsvalue number) (w key text : string) : Prop :=
  present w h → printable data key text.

Record summary_ok (h : heap) (data : jsvalue number)
    (temp rh dew wind vis pressure : string) : Prop := {
  ok_temp : field_ok h data wTemp "temp" temp;
  ok_rh : field_ok h data wHum "rh" rh;
  ok_dew : field_ok h data wDew "dew" dew;
  ok_wind : field_ok h data wWind "wind" wind;
  ok_vis : field_ok h data wVis "vis" vis;
  ok_pressure : field_ok h data wPres "pressure" pressure;
}.
End Texts.

(** The events and the writes of lines 37 to 42 when the six fields print
    as the six given texts. *)
Definition text_events (h : heap) (temp rh dew wind vis pressure : string) : list event :=
  field_event h wTemp (temp +:+ "°C") ++
  field_event h wHum (rh +:+ "%") ++
  field_event h wDew (dew +:+ "°C") ++
  field_event h wWind (wind +:+ " km/h") ++
  field_event h wVis (vis +:+ " km") ++
  field_event h wPres (pressure +:+ " hPa").

Definition text_writes (temp rh dew wind vis pressure : string) (h : heap) : heap :=
  alter (with_innerText (pressure +:+ " hPa")) wPres
    (alter (with_innerText (vis +:+ " km")) wVis
       (alter (with_innerText (wind +:+ " km/h")) wWind
          (alter (with_innerText (dew +:+ "°C")) wDew
             (alter (with_innerText (rh +:+ "%")) wHum
                (alter (with_innerText (temp +:+ "°C")) wTemp h))))).

(** ** Reading the request body back *)

Definition hex_value (c : ascii) : option nat :=
  (fix find (digits : list ascii) (n : nat) : option nat :=
     match digits with
     | [] => None
     | d :: rest => if Ascii.eqb c d then Some n else find rest (S n)
     end) (list_ascii_of_string "0123456789abcdef") 0.

(** The character a two-character escape stands for. *)
Definition unescape (e : ascii) : option ascii :=
  if Ascii.eqb e "b" then Some "008"%char
  else if Ascii.eqb e "t" then Some "009"%char
  else if Ascii.eqb e "n" then Some "010"%char
  else if Ascii.eqb e "f" then Some "012"%char
  else if Ascii.eqb e "r" then Some "013"%char
  else if Ascii.eqb e "034" then Some "034"%char
  else if Ascii.eqb e "\" then Some "\"%char
  else None.

Definition prepend (c : ascii) (p : string * string) : string * string :=
  (String c p.1, p.2).

(** A reader for the string literals [QuoteJSONString] writes: the content
    up to the closing quote, with the escapes undone, and what follows the
    quote. *)
Fixpoint read_literal (s : string) : option (string * string) :=
  match s with
  | EmptyString => None
  | String c rest =>
      if Ascii.eqb c "034" then Some (EmptyString, rest)
      else if Ascii.eqb c "\" then
        match rest with
        | EmptyString => None
        | String e rest1 =>
            match unescape e with
            | Some d => prepend d <$> read_literal rest1
            | None =>
                if Ascii.eqb e "u" then
                  match rest1 with
                  | String "0" (String "0" (String x (String y rest2))) =>
                      match hex_value x, hex_value y with
                      | Some a, Some b =>
                          prepend (ascii_of_nat (16 * a + b)) <$> read_literal rest2
                      | _, _ => None
                      end
                  | _ => None
                  end
                else None
            end
        end
      else prepend c <$> read_literal rest
  end.

(** No character of [s] is below the space: none of the control
    characters that JSON forbids inside a string. *)
Fixpoint no_control (s : string) : bool :=
  match s with
  | EmptyString => true
  | String c rest => Nat.leb 32 (nat_of_ascii c) && no_control rest
  end.

(** ** What a click reads *)

(** Two pages the handler cannot tell apart: the same elements exist and
    the city selector holds the same value. *)
Definition similar (h h' : heap) : Prop :=
  (∀ id, is_Some (h !! id) ↔ is_Some (h' !! id)) ∧
  value <$> h !! citySelect = value <$> h' !! citySelect.

(** [stable m]: from two states with similar documents [m] completes the
    same way and performs the same events. *)
Definition stable {A} (m : M A) : Prop :=
  ∀ s s', similar (doc s) (doc s') →
    ∃ r evs, m s = (r, extend s evs) ∧ m s' = (r, extend s' evs).

(** [settles evs]: performing [evs] a second time changes nothing. *)
Definition settles (evs : list event) : Prop :=
  ∀ h, replay evs (replay evs h) = replay evs h.

(** What follows the summary writes in a request cycle: the notification
    of the server's error, the reveal of the result, or the [catch]
    block, and then the cleanup. *)
Definition cycle_tail (tail : list event) : Prop :=
  (∃ message, tail = [Alert message] ++ restore_events) ∨
  (∃ markup, tail = reveal_events markup ++ restore_events) ∨
  (∃ e, tail = catch_events e ++ restore_events).

(** ** From the load of the page to its clicks *)

(** What becomes of a click on the button: a disabled button receives no
    click event, on an enabled one the listener runs.  In this section the
    listener runs to its completion before anything else happens, which is
    exact when it ends before its first [await]; clicks that arrive while
    a request is pending are the matter of the next section. *)
Inductive delivery : Type :=
  | Ignored
  | Handled (r : outcome unit).

Section Page.
Context {number : Type}.
Variable Number_toString : number → string.
Variable Number_toBoolean : number → bool.

(** Lines 1 to 15, the callback of [DOMContentLoaded].  The ten lookups
    of lines 2 to 13 give [null] for a missing element and do not throw;
    [calcBtn.addEventListener] at line 15 dereferences the button and
    registers the listener, which takes the service of the moment. *)
Definition DOMContentLoaded : M ((request → fetch_result number) → M unit) :=
  present <~ exists_ calcBtn ;;
  if present then ret (click Number_toString Number_toBoolean)
  else throw TypeError.

(** One click on the button.  The listener is asynchronous: what it
    throws rejects its promise and stops nothing else. *)
Definition dispatch (listener : (request → fetch_result number) → M unit)
    (server : request → fetch_result number) : M delivery :=
  λ s, match doc s !! calcBtn with
       | Some btn =>
           if disabled btn then (Return Ignored, s)
           else let '(r, s') := listener server s in (Return (Handled r), s')
       | None => (Return Ignored, s)
       end.

(** Clicks one after the other, each handled to its end, with the answer
    the service gives at that moment, before the next arrives. *)
Fixpoint clicks (listener : (request → fetch_result number) → M unit)
    (servers : list (request → fetch_result number)) : M (list delivery) :=
  match servers with
  | [] => ret []
  | server :: rest =>
      d <~ dispatch listener server ;;
      ds <~ clicks listener rest ;;
      ret (d :: ds)
  end.

(** The page is loaded, then clicked. *)
Definition visit (servers : list (request → fetch_result number)) (h : heap) :
    outcome (list delivery) * state :=
  (listener <~ DOMContentLoaded ;; clicks listener servers) {| doc := h; log := [] |}.
End Page.

(** ** Clicks while a request is pending *)

(** The listener is an [async] function.  It runs up to the [await] of
    line 25 and goes on when the request has settled; after a response it
    waits once more, at line 31, for the body.  A listener between two of
    its segments is pending: for its request, or for the body of the
    response it has got. *)
Inductive phase (number : Type) : Type :=
  | AwaitsFetch (req : request)
  | AwaitsBody (r : response number).

Arguments AwaitsFetch {number} req.
Arguments AwaitsBody {number} r.

(** What happens on the page: the button is clicked, the request of the
    [i]-th pending listener settles, the body the [i]-th pending listener
    waits for has been read.  Nothing says that a request settles at
    all. *)
Inductive action (number : Type) : Type :=
  | Click
  | FetchSettles (i : nat) (a : fetch_result number)
  | BodySettles (i : nat).

Arguments Click {number}.
Arguments FetchSettles {number} i a.
Arguments BodySettles {number} i.

Definition is_click {number} (act : action number) : bool :=
  match act with Click => true | _ => false end.

(** The document with the log, and the listeners that are pending, oldest
    first. *)
Record browser (number : Type) : Type := {
    page : state;
    pending : list (phase number);
  }.

Arguments page {number} b.
Arguments pending {number} b.

Section Pending.
Context {number : Type}.
Variable Number_toString : number → string.
Variable Number_toBoolean : number → bool.

(** Lines 17 to 29: the listener up to its first [await].  The call of
    [fetch] stands inside the [try] already, but it issues the request
    and returns a promise; it does not throw. *)
Definition start : M request :=
  _ <~ busy_reset ;;
  selected <~ get_value citySelect ;;
  let req := assess_request {| city := selected |} in
  _ <~ emit (Fetch req) ;;
  ret req.

(** Lines 25 to 50 from the settled request on: the rest of the body of
    the [try]. *)
Definition after_fetch (a : fetch_result number) : M unit :=
  response <~ match a with Resolves r => ret r | Rejects e => throw e end ;;
  data <~ json response ;;
  err <~ lift (Get data "error") ;;
  if ToBoolean Number_toBoolean err then show_error Number_toString data
  else _ <~ inject_summary Number_toString data ;; show_results Number_toString data.

(** The listener from the settled request to its end, under the [catch]
    and the [finally] of lines 52 to 59. *)
Definition settle (a : fetch_result number) : M unit :=
  try_catch_finally (after_fetch a) catch_block finally_block.

(** One thing happens.  A click starts a listener when the button exists
    and is not disabled, whatever is pending; a listener that throws
    before its first [await] is over.  A response moves its listener to
    the second [await], where no statement of the handler runs; a
    rejected request, and a body that has been read, run the listener to
    its end.  What the listener's promise settles with is observed by
    nobody.  An action that names no pending listener, or not the one that
    waits for it, does not happen. *)
Definition step (b : browser number) (act : action number) : browser number :=
  match act with
  | Click =>
      match doc (page b) !! calcBtn with
      | Some btn =>
          if disabled btn then b
          else match start (page b) with
               | (Return req, s) =>
                   {| page := s; pending := pending b ++ [AwaitsFetch req] |}
               | (Throw _, s) => {| page := s; pending := pending b |}
               end
      | None => b
      end
  | FetchSettles i a =>
      match pending b !! i, a with
      | Some (AwaitsFetch _), Resolves r =>
          {| page := page b; pending := <[i := AwaitsBody r]> (pending b) |}
      | Some (AwaitsFetch _), Rejects e =>
          {| page := (settle (Rejects e) (page b)).2; pending := delete i (pending b) |}
      | _, _ => b
      end
  | BodySettles i =>
      match pending b !! i with
      | Some (AwaitsBody r) =>
          {| page := (settle (Resolves r) (page b)).2; pending := delete i (pending b) |}
      | _ => b
      end
  end.

Definition play (acts : list (action number)) (b : browser number) : browser number :=
  foldl step b acts.

(** A page just loaded: nothing logged, nothing pending. *)
Definition loaded (h : heap) : browser number :=
  {| page := {| doc := h; log := [] |}; pending := [] |}.
End Pending.

(** The cleanups and the clicks that have happened. *)
Definition cleanups (evs : list event) : nat :=
  length (filter (λ ev, ev = SetDisabled calcBtn false) evs).

Definition clicked {number} (acts : list (action number)) : nat :=
  length (filter (λ act, is_click act = true) acts).

(** [orderly b]: the page has the container, the display and the
    selector; at most one listener is pending and the button is disabled
    exactly then; every request but a pending one has had its cleanup; no
    more alerts were shown than cleanups done. *)
Definition orderly {number} (b : browser number) : Prop :=
  present resultArea (doc (page b)) ∧ present resultDisplay (doc (page b)) ∧
  present citySelect (doc (page b)) ∧
  length (pending b) ≤ 1 ∧
  (∃ btn, doc (page b) !! calcBtn = Some btn ∧ (disabled btn = true ↔ pending b ≠ [])) ∧
  length (fetches (log (page b))) = cleanups (log (page b)) + length (pending b) ∧
  length (alerts (log (page b))) ≤ cleanups (log (page b)).


(** ** More sample pages and responses *)

(** A page with the button, the container, the display and the selector
    and nothing else. *)
Definition bare_page : heap :=
  list_to_map
    [(calcBtn, with_innerText idle_label blank);
     (resultArea, with_classList (λ _, ["card"; "hidden"]) blank);
     (citySelect, city_select "Paris");
     (resultDisplay, blank)].

(** A summary whose fields are not all numbers, one of them missing. *)
Definition mixed_summary : jsvalue Z :=
  VObject [("temp", VString "n/a"); ("rh", VNumber 50%Z); ("dew", VNull);
           ("wind", VArray [VNumber 5%Z; VNumber 7%Z]); ("vis", VBool true)].

Definition mixed_response : jsvalue Z :=
  VObject [("weather_summary", mixed_summary); ("result", VString "<p>Clear</p>")].

(** A value without a string form. *)
Definition unprintable : jsvalue Z := VObject [("toString", VNull)].

Definition unprintable_result_response : jsvalue Z :=
  VObject [("weather_summary", mixed_summary); ("result", unprintable)].

Definition unprintable_error_response : jsvalue Z :=
  VObject [("error", unprintable)].

Definition result_only_response : jsvalue Z :=
  VObject [("result", VString "<p>Clear</p>")].

Definition sample_visit (servers : list (fetch_result Z)) (h : heap) :
    outcome (list delivery) * state :=
  visit sample_toString sample_toBoolean (answers <$> servers) h.

Definition sample_play (acts : list (action Z)) (h : heap) : browser Z :=
  play sample_toString sample_toBoolean acts (loaded h).

(** Two clicks in a row, a response, a click while its body is read, the
    body, and a click when all is over. *)
Definition impatient : list (action Z) :=
  [Click; Click; FetchSettles 0 (Resolves (JsonBody clear_response)); Click;
   BodySettles 0; Click].

(** ** Basic facts *)

Lemma extend_nil s : extend s [] = s.
Proof. destruct s as [h l]. unfold extend; simpl. by rewrite app_nil_r. Qed.

Lemma extend_app s evs1 evs2 : extend (extend s evs1) evs2 = extend s (evs1 ++ evs2).
Proof. unfold extend, replay; simpl. by rewrite foldl_app, app_assoc. Qed.

Lemma replay_app evs1 evs2 h : replay (evs1 ++ evs2) h = replay evs2 (replay evs1 h).
Proof. unfold replay. by rewrite foldl_app. Qed.

Lemma apply_event_present ev h id : present id (apply_event ev h) ↔ present id h.
Proof.
  unfold present. destruct ev; simpl; try done;
    rewrite lookup_alter_is_Some; done.
Qed.

Lemma replay_present evs h id : present id (replay evs h) ↔ present id h.
Proof.
  revert h. induction evs as [|ev evs IH]; intros h; [done|].
  change (replay (ev :: evs) h) with (replay evs (apply_event ev h)).
  by rewrite IH, apply_event_present.
Qed.

Lemma extend_present s evs id : present id (doc (extend s evs)) ↔ present id (doc s).
Proof. apply replay_present. Qed.

Lemma emit_extend ev s : emit ev s = (Return tt, extend s [ev]).
Proof. done. Qed.

Lemma bind_return {A B} (m : M A) (k : A → M B) s a s' :
  m s = (Return a, s') → bind m k s = k a s'.
Proof. unfold bind. by intros ->. Qed.

Lemma bind_throw {A B} (m : M A) (k : A → M B) s e s' :
  m s = (Throw e, s') → bind m k s = (Throw e, s').
Proof. unfold bind. by intros ->. Qed.

Lemma write_present id ev s :
  present id (doc s) → write id ev s = (Return tt, extend s [ev]).
Proof.
  intros Hp. unfold write, bind, exists_.
  by rewrite bool_decide_eq_true_2.
Qed.

Lemma write_absent id ev s :
  doc s !! id = None → write id ev s = (Throw TypeError, s).
Proof.
  intros Hn. unfold write, bind, exists_.
  rewrite bool_decide_eq_false_2; [done|].
  rewrite Hn. by intros [? ?].
Qed.

Lemma get_value_ok id el s :
  doc s !! id = Some el → get_value id s = (Return (value el), s).
Proof. unfold get_value. by intros ->. Qed.

Lemma get_value_absent id s :
  doc s !! id = None → get_value id s = (Throw TypeError, s).
Proof. unfold get_value. by intros ->. Qed.

Lemma absent_not_present (h : heap) id : h !! id = None ↔ ¬ present id h.
Proof. unfold present. by rewrite eq_None_not_Some. Qed.

(** ** Logs and documents *)

Ltac alter_lookup :=
  repeat (rewrite lookup_alter_eq || rewrite lookup_alter_ne by done).

Ltac list_all :=
  repeat first
    [ apply Forall_nil_2
    | apply Forall_app_2
    | apply Forall_cons_2; [try done|]
    | assumption ].

Lemma apply_event_other ev h id : target ev ≠ Some id → apply_event ev h !! id = h !! id.
Proof.
  destruct ev; simpl; intros Hne; try done; apply lookup_alter_ne; congruence.
Qed.

Lemma replay_other evs h id :
  Forall (λ ev, target ev ≠ Some id) evs → replay evs h !! id = h !! id.
Proof.
  intros Hall. revert h. induction Hall as [|ev evs Hev _ IH]; intros h; [done|].
  change (replay (ev :: evs) h) with (replay evs (apply_event ev h)).
  by rewrite IH, apply_event_other.
Qed.

Lemma in_summary_ids w :
  w ∈ summary_ids ↔ w = wTemp ∨ w = wHum ∨ w = wDew ∨ w = wWind ∨ w = wVis ∨ w = wPres.
Proof.
  unfold summary_ids, summary_fields; simpl.
  rewrite !elem_of_cons, elem_of_nil. tauto.
Qed.

Lemma summary_ids_other w :
  w ∈ summary_ids →
  w ≠ calcBtn ∧ w ≠ resultArea ∧ w ≠ resultDisplay ∧ w ≠ citySelect.
Proof.
  rewrite in_summary_ids. intros [->|[->|[->|[->|[->| ->]]]]]; done.
Qed.

Lemma field_write_target ev : field_write ev → ∃ w, target ev = Some w ∧ w ∈ summary_ids.
Proof. intros (w & text & -> & Hw). by exists w. Qed.

Lemma field_writes_other writes id :
  id ∉ summary_ids → Forall field_write writes →
  Forall (λ ev, target ev ≠ Some id) writes.
Proof.
  intros Hid Hall. eapply Forall_impl; [exact Hall|].
  intros ev (w & text & -> & Hw); simpl. by intros [= ->].
Qed.

Lemma alerts_app evs1 evs2 : alerts (evs1 ++ evs2) = alerts evs1 ++ alerts evs2.
Proof. apply omap_app. Qed.

Lemma fetches_app evs1 evs2 : fetches (evs1 ++ evs2) = fetches evs1 ++ fetches evs2.
Proof. apply omap_app. Qed.

Lemma logged_errors_app evs1 evs2 :
  logged_errors (evs1 ++ evs2) = logged_errors evs1 ++ logged_errors evs2.
Proof. apply omap_app. Qed.

Lemma field_writes_quiet writes :
  Forall field_write writes →
  alerts writes = [] ∧ fetches writes = [] ∧ logged_errors writes = [] ∧
  Forall (λ ev, ¬ restores ev) writes ∧ Forall (λ ev, ¬ reveals ev) writes.
Proof.
  induction 1 as [|ev writes (w & text & -> & Hw) _ (IH1 & IH2 & IH3 & IH4 & IH5)];
    [by repeat split|].
  apply summary_ids_other in Hw as (Hb & _).
  repeat split; try done; constructor; try done.
  intros [[=]|[=]]. done.
Qed.

Lemma field_event_alter (f : element → element) i (h : heap) w text :
  field_event (alter f i h) w text = field_event h w text.
Proof.
  unfold field_event. erewrite bool_decide_ext; [done|].
  apply lookup_alter_is_Some.
Qed.

Lemma field_event_replay evs (h : heap) w text :
  field_event (replay evs h) w text = field_event h w text.
Proof.
  unfold field_event. erewrite bool_decide_ext; [done|].
  apply (replay_present evs h w).
Qed.

Lemma field_event_quiet h w text :
  alerts (field_event h w text) = [] ∧ logged_errors (field_event h w text) = [] ∧
  fetches (field_event h w text) = [].
Proof. unfold field_event. by case_bool_decide. Qed.

Lemma fmap_shown (h h' : heap) w text :
  h' !! w = with_innerText text <$> h !! w → shown h h' w text.
Proof.
  unfold shown. intros ->. destruct (h !! w) as [el|]; [|done]. by eexists.
Qed.



Lemma token_add_elem tok toks : tok ∈ token_add tok toks.
Proof. unfold token_add. case_bool_decide; set_solver. Qed.

Lemma token_add_present tok toks : tok ∈ toks → token_add tok toks = toks.
Proof. unfold token_add. intros H. by rewrite bool_decide_eq_true_2. Qed.

Lemma token_add_idemp tok toks : token_add tok (token_add tok toks) = token_add tok toks.
Proof. apply token_add_present, token_add_elem. Qed.

Lemma token_remove_elem tok toks : tok ∉ token_remove tok toks.
Proof. unfold token_remove. rewrite list_elem_of_filter. by intros [? _]. Qed.

Lemma hidden_after_reset area : is_hidden (with_classList (token_add "hidden") area).
Proof. apply token_add_elem. Qed.

(** The two notifications are different texts. *)
Lemma alert_not_connection_failed x : "Alert: " +:+ x ≠ connection_failed.
Proof. done. Qed.



Lemma replay_reset_city h : replay reset_events h !! citySelect = h !! citySelect.
Proof.
  unfold replay, reset_events; simpl.
  by rewrite !lookup_alter_ne.
Qed.

Lemma replay_reset_area h :
  replay reset_events h !! resultArea =
    with_classList (token_add "hidden") <$> h !! resultArea.
Proof.
  unfold replay, reset_events; simpl.
  by alter_lookup.
Qed.

Lemma replay_reset_display h :
  replay reset_events h !! resultDisplay = with_innerHTML "" <$> h !! resultDisplay.
Proof.
  unfold replay, reset_events; simpl.
  by alter_lookup.
Qed.

Lemma replay_reset_button h :
  replay reset_events h !! calcBtn =
    with_disabled true <$> (with_innerText busy_label <$> h !! calcBtn).
Proof.
  unfold replay, reset_events; simpl.
  by alter_lookup.
Qed.

Lemma replay_reset_summary h w :
  w ∈ summary_ids → replay reset_events h !! w = h !! w.
Proof.
  intros (? & ? & ? & _)%summary_ids_other.
  apply replay_other. repeat constructor; simpl; congruence.
Qed.

Lemma replay_reset_other h id :
  id ≠ calcBtn → id ≠ resultArea → id ≠ resultDisplay →
  replay reset_events h !! id = h !! id.
Proof.
  intros ???. apply replay_other. unfold reset_events. list_all; simpl; congruence.
Qed.


Lemma idle_after_restore (h : heap) btn :
  h !! calcBtn = Some btn →
  ∃ btn', replay restore_events h !! calcBtn = Some btn' ∧ idle btn'.
Proof.
  intros Hb. unfold replay, restore_events; simpl.
  rewrite !lookup_alter_eq, Hb; simpl. eexists; split; [done|]. by split.
Qed.

Lemma busy_after_reset (h : heap) btn evs :
  h !! calcBtn = Some btn →
  evs = take 2 reset_events ∨ evs = take 3 reset_events ∨ evs = reset_events →
  ∃ btn', replay evs h !! calcBtn = Some btn' ∧ busy btn'.
Proof.
  intros Hb [->|[->| ->]]; unfold replay, reset_events; cbn [take foldl apply_event];
    alter_lookup; rewrite Hb; by eexists.
Qed.

Lemma quote_char_plain c : plain c = true → quote_char c = String c "".
Proof.
  unfold plain, quote_char.
  intros [[H1 H2]%andb_prop H3]%andb_prop.
  apply Nat.leb_le in H1. apply negb_true_iff in H2, H3.
  rewrite H2, H3.
  repeat match goal with
         | |- context [Nat.eqb ?n ?k] =>
             rewrite (proj2 (Nat.eqb_neq n k)) by lia
         end.
  by rewrite (proj2 (Nat.ltb_ge _ _)) by lia.
Qed.

Lemma quote_chars_plain s : plain_string s = true → quote_chars s = s.
Proof.
  induction s as [|c s IH]; [done|]; simpl.
  intros [Hc Hs]%andb_prop. by rewrite quote_char_plain, IH.
Qed.

Lemma cycle_quiet {number} ts tb (answer : fetch_result number) pth evs :
  cycle ts tb answer pth evs →
  fetches evs = [] ∧ Forall (λ ev, ¬ restores ev) evs ∧
  Forall (λ ev, target ev ≠ Some calcBtn) evs.
Proof.
  assert (calcBtn ∉ summary_ids) as Hb.
  { intros H. by apply summary_ids_other in H as (? & _). }
  destruct 1 as [data err message _ _ _ _|data err writes markup _ _ _ Hw|writes e Hw _];
    [split_and!; [done|apply Forall_singleton; by intros [[=]|[=]]|by apply Forall_singleton]| |];
    destruct (field_writes_quiet _ Hw) as (_ & Hf & _ & Hr & _);
    pose proof (field_writes_other _ _ Hb Hw) as Ht;
    rewrite fetches_app, Hf, !Forall_app; repeat split; try done;
    repeat constructor; try done; by intros [[=]|[=]].
Qed.

Lemma cycle_notifications {number} ts tb (answer : fetch_result number) pth evs :
  cycle ts tb answer pth evs →
  match pth with
  | ServerError message =>
      alerts evs = ["Alert: " +:+ message] ∧ logged_errors evs = []
  | Success _ => alerts evs = [] ∧ logged_errors evs = []
  | Failure e =>
      alerts evs = [connection_failed] ∧ logged_errors evs = [("Fetch error:", e)]
  end.
Proof.
  destruct 1 as [data err message _ _ _ _|data err writes markup _ _ _ Hw|writes e Hw _];
    [done| |];
    destruct (field_writes_quiet _ Hw) as (Hal & _ & Hle & _ & _);
    by rewrite alerts_app, logged_errors_app, Hal, Hle.
Qed.

(** ** Effects of the combinators *)

Lemma emits_ret P {A} (a : A) : emits P (ret a).
Proof. intros s r s' [= <- <-]. exists []. by rewrite extend_nil. Qed.

Lemma emits_throw P {A} e : emits P (@throw A e).
Proof. intros s r s' [= <- <-]. exists []. by rewrite extend_nil. Qed.

Lemma emits_lift P {A} (o : outcome A) : emits P (lift o).
Proof. intros s r s' [= <- <-]. exists []. by rewrite extend_nil. Qed.

Lemma emits_emit (P : event → Prop) ev : P ev → emits P (emit ev).
Proof. intros HP s r s' [= <- <-]. exists [ev]. split; [done|]. by constructor. Qed.

Lemma emits_bind P {A B} (m : M A) (k : A → M B) :
  emits P m → (∀ a, emits P (k a)) → emits P (bind m k).
Proof.
  intros Hm Hk s r s'. unfold bind.
  destruct (m s) as [[a|e] s1] eqn:E; intros H.
  - destruct (Hm _ _ _ E) as (evs1 & -> & F1).
    destruct (Hk a _ _ _ H) as (evs2 & -> & F2).
    exists (evs1 ++ evs2). rewrite extend_app. split; [done|]. by apply Forall_app.
  - injection H as <- <-. by apply (Hm _ _ _ E).
Qed.

Lemma emits_write (P : event → Prop) id ev : P ev → emits P (write id ev).
Proof.
  intros HP. apply emits_bind.
  - intros s r s' [= <- <-]. exists []. by rewrite extend_nil.
  - intros []; [by apply emits_emit | apply emits_throw].
Qed.

Lemma emits_try P {A} (body : M A) handler cleanup :
  emits P body → (∀ e, emits P (handler e)) → emits P cleanup →
  emits P (try_catch_finally body handler cleanup).
Proof.
  intros Hb Hh Hc s r s'. unfold try_catch_finally.
  destruct (body s) as [[a|e] s1] eqn:E.
  - destruct (Hb _ _ _ E) as (evs1 & -> & F1).
    destruct (cleanup _) as [[u|e] s2] eqn:E2; intros [= <- <-];
      destruct (Hc _ _ _ E2) as (evs2 & -> & F2);
      exists (evs1 ++ evs2); rewrite extend_app; (split; [done|]); by apply Forall_app.
  - destruct (Hb _ _ _ E) as (evs1 & -> & F1).
    destruct (handler e _) as [r1 s2] eqn:E1.
    destruct (Hh _ _ _ _ E1) as (evs2 & -> & F2).
    destruct (cleanup _) as [[u|e'] s3] eqn:E2; intros [= <- <-];
      destruct (Hc _ _ _ E2) as (evs3 & -> & F3);
      exists (evs1 ++ evs2 ++ evs3); rewrite !extend_app, <- ?app_assoc;
      (split; [done|]); rewrite !Forall_app; done.
Qed.

Lemma emits_weaken (P Q : event → Prop) {A} (m : M A) :
  (∀ ev, P ev → Q ev) → emits P m → emits Q m.
Proof.
  intros HPQ Hm s r s' E. destruct (Hm _ _ _ E) as (evs & -> & HP).
  exists evs. split; [done|]. by eapply Forall_impl.
Qed.

Lemma emits_get_value P id : emits P (get_value id).
Proof.
  intros s r s'. unfold get_value.
  destruct (doc s !! id); intros [= <- <-]; exists []; by rewrite extend_nil.
Qed.

(** ** The phases of the handler *)

Ltac write_step :=
  erewrite (bind_return (write _ _)) by
    (apply write_present; rewrite ?extend_present; assumption);
  rewrite ?extend_app.

Section Steps.
Context {number : Type}.
Variable Number_toString : number → string.
Variable Number_toBoolean : number → bool.
Variable server : request → fetch_result number.

Lemma busy_reset_ok s :
  present calcBtn (doc s) → present resultArea (doc s) → present resultDisplay (doc s) →
  busy_reset s = (Return tt, extend s reset_events).
Proof.
  intros Hb Ha Hd. unfold busy_reset, set_innerText, set_disabled, classList_add, set_innerHTML.
  do 3 write_step.
  rewrite write_present by (rewrite ?extend_present; assumption).
  by rewrite extend_app.
Qed.

Lemma finally_block_ok s :
  present calcBtn (doc s) → finally_block s = (Return tt, extend s restore_events).
Proof.
  intros Hb. unfold finally_block, set_innerText, set_disabled.
  write_step.
  rewrite write_present by (rewrite ?extend_present; assumption).
  by rewrite extend_app.
Qed.

Lemma catch_block_ok e s : catch_block e s = (Return tt, extend s (catch_events e)).
Proof.
  unfold catch_block, console_error, alert.
  erewrite bind_return by apply emit_extend.
  by rewrite emit_extend, extend_app.
Qed.

Lemma fetch_ok req s :
  fetch server req s =
    match server req with
    | Resolves r => (Return r, extend s [Fetch req])
    | Rejects e => (Throw e, extend s [Fetch req])
    end.
Proof. unfold fetch, bind. rewrite emit_extend. by destruct (server req). Qed.

Lemma show_error_ok data err s :
  Get data "error" = Return err →
  show_error Number_toString data s =
    match ToString Number_toString err with
    | Return message => (Return tt, extend s [Alert ("Alert: " +:+ message)])
    | Throw e => (Throw e, s)
    end.
Proof.
  intros He. unfold show_error, lift, concat_left, alert, bind. rewrite He.
  destruct (ToString _ err); [apply emit_extend | done].
Qed.

Lemma show_results_ok data result markup s :
  present resultArea (doc s) → present resultDisplay (doc s) →
  Get data "result" = Return result →
  ToDOMString_null_empty Number_toString result = Return markup →
  show_results Number_toString data s = (Return tt, extend s (reveal_events markup)).
Proof.
  intros Ha Hd Hr Hm. unfold show_results, lift, set_innerHTML, classList_remove, scrollIntoView.
  rewrite Hr. erewrite bind_return by reflexivity.
  rewrite Hm. erewrite bind_return by reflexivity.
  do 2 write_step.
  rewrite write_present by (rewrite ?extend_present; assumption).
  by rewrite extend_app.
Qed.

Lemma update_field_emits w key suffix data :
  w ∈ summary_ids → emits field_write (update_field Number_toString w key suffix data).
Proof.
  intros Hw. unfold update_field.
  apply emits_bind; [intros s r s' [= <- <-]; exists []; by rewrite extend_nil|].
  intros []; [|apply emits_ret].
  repeat (apply emits_bind; [apply emits_lift|intros ?]).
  apply emits_write. by exists w, a1.
Qed.

Lemma update_field_ok w key suffix data summary x text s :
  Get data "weather_summary" = Return summary →
  Get summary key = Return x →
  ToString Number_toString x = Return text →
  update_field Number_toString w key suffix data s =
    (Return tt,
     {| doc := alter (with_innerText (text +:+ suffix)) w (doc s);
        log := log s ++ field_event (doc s) w (text +:+ suffix) |}).
Proof.
  intros Hs Hk Ht. unfold update_field, exists_, field_event, bind at 1.
  case_bool_decide as Hp.
  - unfold lift, concat_right, bind. rewrite Hs, Hk, Ht.
    unfold set_innerText. by rewrite write_present.
  - unfold ret. destruct s as [h l]; cbn [doc log].
    rewrite alter_id', app_nil_r; [done|]. by apply eq_None_not_Some.
Qed.

End Steps.

Section Summary.
Context {number : Type}.
Variable Number_toString : number → string.
Variable Number_toBoolean : number → bool.
Variable server : request → fetch_result number.

Lemma inject_summary_emits data : emits field_write (inject_summary Number_toString data).
Proof.
  unfold inject_summary.
  repeat (apply emits_bind; [|intros _]);
    apply update_field_emits; apply in_summary_ids; tauto.
Qed.

Lemma inject_summary_ok data temp rh dew wind vis pressure markup s :
  well_formed data temp rh dew wind vis pressure markup →
  inject_summary Number_toString data s =
    (Return tt,
     {| doc := summary_writes Number_toString temp rh dew wind vis pressure (doc s);
        log := log s ++ summary_events Number_toString (doc s) temp rh dew wind vis pressure |}).
Proof.
  intros [_ (summary & Hs & H1 & H2 & H3 & H4 & H5 & H6) _].
  unfold inject_summary, summary_events, summary_writes.
  do 5 (erewrite bind_return by (eapply update_field_ok; [exact Hs|eassumption|reflexivity])).
  erewrite update_field_ok; [|exact Hs|eassumption|reflexivity].
  cbn [doc log]. rewrite !field_event_alter. by rewrite <- !app_assoc.
Qed.

Lemma show_results_cases data s r s' :
  present resultArea (doc s) → present resultDisplay (doc s) →
  show_results Number_toString data s = (r, s') →
  (∃ markup, r = Return tt ∧ s' = extend s (reveal_events markup)) ∨
  (∃ e, r = Throw e ∧ s' = s).
Proof.
  intros Ha Hd.
  destruct (Get data "result") as [result|e] eqn:Hr.
  - destruct (ToDOMString_null_empty Number_toString result) as [markup|e] eqn:Hm.
    + rewrite (show_results_ok _ _ _ _ _ Ha Hd Hr Hm). intros [= <- <-]. left; eauto.
    + unfold show_results, lift. rewrite Hr. erewrite bind_return by reflexivity.
      rewrite Hm. erewrite bind_throw by reflexivity. intros [= <- <-]. right; eauto.
  - unfold show_results, lift. rewrite Hr. erewrite bind_throw by reflexivity.
    intros [= <- <-]. right; eauto.
Qed.

End Summary.

Section TryBlock.
Context {number : Type}.
Variable Number_toString : number → string.
Variable Number_toBoolean : number → bool.
Variable server : request → fetch_result number.

(** The body of the [try], by cases. *)
Lemma try_block_cases p s r s' :
  present resultArea (doc s) → present resultDisplay (doc s) →
  try_block Number_toString Number_toBoolean server p s = (r, s') →
  (∃ pth evs,
      (∀ e, pth ≠ Failure e) ∧
      cycle Number_toString Number_toBoolean (server (assess_request p)) pth evs ∧
      r = Return tt ∧ s' = extend s (Fetch (assess_request p) :: evs)) ∨
  (∃ e writes,
      Forall field_write writes ∧
      thrown (server (assess_request p)) e writes ∧
      r = Throw e ∧ s' = extend s (Fetch (assess_request p) :: writes)).
Proof.
  intros Ha Hd. unfold try_block.
  unfold bind at 1. rewrite fetch_ok.
  destruct (server (assess_request p)) as [[data|e]|e] eqn:Hs;
    [|intros [= <- <-]; right; exists e, []; by repeat split..].
  unfold json, ret, lift, bind.
  destruct (Get data "error") as [err|e] eqn:He;
    [|intros [= <- <-]; right; exists e, []; by repeat split].
  destruct (ToBoolean Number_toBoolean err) eqn:Hb.
  - rewrite (show_error_ok _ _ _ _ He).
    destruct (ToString Number_toString err) as [message|e] eqn:Ht; intros [= <- <-].
    + left. exists (ServerError message), [Alert ("Alert: " +:+ message)].
      rewrite extend_app. split_and!; [done| |done|done]. by eapply cycle_error.
    + right. exists e, []. by repeat split.
  - destruct (inject_summary Number_toString data _) as [[[]|e] s1] eqn:Hi;
      destruct (inject_summary_emits _ _ _ _ _ Hi) as (writes & -> & Hw).
    + intros Hr.
      apply show_results_cases in Hr; [|by rewrite !extend_present..].
      destruct Hr as [(markup & -> & ->)|(e & -> & ->)].
      * left. exists (Success markup), (writes ++ reveal_events markup).
        rewrite !extend_app. split_and!; [done| |done|done]. by eapply cycle_success.
      * right. exists e, writes. rewrite !extend_app. by repeat split.
    + intros [= <- <-]. right. exists e, writes. rewrite !extend_app. by repeat split.
Qed.

(** The body of the [try] on the server-error branch. *)
Lemma try_block_error p s data err :
  server (assess_request p) = Resolves (JsonBody data) →
  Get data "error" = Return err →
  ToBoolean Number_toBoolean err = true →
  try_block Number_toString Number_toBoolean server p s =
    match ToString Number_toString err with
    | Return message =>
        (Return tt, extend s [Fetch (assess_request p); Alert ("Alert: " +:+ message)])
    | Throw e => (Throw e, extend s [Fetch (assess_request p)])
    end.
Proof.
  intros Hs He Hb. unfold try_block.
  unfold bind at 1. rewrite fetch_ok, Hs.
  unfold json, ret, lift, bind. rewrite He, Hb.
  rewrite (show_error_ok _ _ _ _ He).
  destruct (ToString Number_toString err); [by rewrite extend_app|done].
Qed.

End TryBlock.

(** ** The run *)

Section Click.
Context {number : Type}.
Variable Number_toString : number → string.
Variable Number_toBoolean : number → bool.
Variable server : request → fetch_result number.

Local Abbreviation run := (run Number_toString Number_toBoolean server).
Local Abbreviation cycle := (cycle Number_toString Number_toBoolean).

(** A click on a page that has the button, the results container, the
    results display and the city selector runs one request cycle. *)
Lemma click_cycle h sel :
  present calcBtn h → present resultArea h → present resultDisplay h →
  h !! citySelect = Some sel →
  let req := assess_request {| city := value sel |} in
  ∃ pth evs,
    cycle (server req) pth evs ∧
    run h = (Return tt,
             extend {| doc := h; log := [] |}
               (reset_events ++ Fetch req :: evs ++ restore_events)).
Proof.
  intros Hb Ha Hd Hc req. unfold run, click.
  erewrite bind_return by by apply busy_reset_ok.
  erewrite bind_return; last first.
  { apply get_value_ok. unfold extend; cbn [doc]. by rewrite replay_reset_city. }
  fold req. unfold try_catch_finally.
  destruct (try_block _ _ _ _ _) as [r s1] eqn:Ht.
  apply try_block_cases in Ht; [|by rewrite extend_present..].
  destruct Ht as [(pth & evs & _ & Hcy & -> & ->)|(e & writes & Hw & Hth & -> & ->)].
  - exists pth, evs. split; [done|].
    rewrite finally_block_ok by by rewrite !extend_present.
    by rewrite !extend_app, <- ?app_assoc.
  - exists (Failure e), (writes ++ catch_events e). split; [by constructor|].
    rewrite catch_block_ok.
    rewrite finally_block_ok by by rewrite !extend_present.
    by rewrite !extend_app, <- ?app_assoc.
Qed.

(** A click on a page that lacks one of them throws out of the reset or
    out of the read of the selection, before the [try] is entered. *)
Lemma click_abort h :
  present calcBtn h →
  ¬ (present resultArea h ∧ present resultDisplay h ∧ present citySelect h) →
  ∃ evs,
    run h = (Throw TypeError, extend {| doc := h; log := [] |} evs) ∧
    ((h !! resultArea = None ∧ evs = take 2 reset_events) ∨
     (present resultArea h ∧ h !! resultDisplay = None ∧ evs = take 3 reset_events) ∨
     (present resultArea h ∧ present resultDisplay h ∧ h !! citySelect = None ∧
      evs = reset_events)).
Proof.
  intros Hb Hn. unfold run, click.
  destruct (h !! resultArea) as [area|] eqn:Ea.
  - assert (present resultArea h) as Pa by (unfold present; by rewrite Ea).
    destruct (h !! resultDisplay) as [display|] eqn:Ed.
    + assert (present resultDisplay h) as Pd by (unfold present; by rewrite Ed).
      destruct (h !! citySelect) as [sel|] eqn:Ec.
      { exfalso. apply Hn. unfold present. by rewrite Ec. }
      exists reset_events. split; [|right; right; by repeat split].
      erewrite bind_return by by apply busy_reset_ok.
      erewrite bind_throw; [done|].
      apply get_value_absent. unfold extend; cbn [doc]. by rewrite replay_reset_city.
    + exists (take 3 reset_events). split; [|right; left; by repeat split].
      erewrite bind_throw; [done|].
      unfold busy_reset, set_innerText, set_disabled, classList_add, set_innerHTML.
      do 3 write_step.
      rewrite write_absent; [done|].
      apply absent_not_present. rewrite extend_present. by apply absent_not_present.
  - exists (take 2 reset_events). split; [|left; by split].
    erewrite bind_throw; [done|].
    unfold busy_reset, set_innerText, set_disabled, classList_add, set_innerHTML.
    do 2 write_step.
    erewrite bind_throw; [done|].
    rewrite write_absent; [done|].
    apply absent_not_present. rewrite extend_present. by apply absent_not_present.
Qed.

(** The run, from what the body of the [try] does. *)
Lemma run_of_try (h : heap) btn area display sel r s1 :
  h !! calcBtn = Some btn → h !! resultArea = Some area →
  h !! resultDisplay = Some display → h !! citySelect = Some sel →
  try_block Number_toString Number_toBoolean server {| city := value sel |} (at_try h)
    = (r, s1) →
  run h =
    (Return tt,
     extend s1 (match r with
                | Return _ => restore_events
                | Throw e => catch_events e ++ restore_events
                end)).
Proof.
  intros Hb Ha Hd Hc Ht.
  assert (present calcBtn h ∧ present resultArea h ∧ present resultDisplay h)
    as (Pb & Pa & Pd) by (unfold present; rewrite Hb, Ha, Hd; eauto).
  assert (present calcBtn (doc s1)) as Pb1.
  { apply try_block_cases in Ht; [|unfold at_try; by rewrite extend_present..].
    destruct Ht as [(? & ? & _ & _ & _ & ->)|(? & ? & _ & _ & _ & ->)];
      unfold at_try; by rewrite !extend_present. }
  unfold run, click.
  erewrite bind_return by by apply busy_reset_ok.
  erewrite bind_return; last first.
  { apply get_value_ok. unfold extend; cbn [doc]. by rewrite replay_reset_city. }
  unfold try_catch_finally. fold (at_try h). rewrite Ht.
  destruct r as [[]|e].
  - by rewrite finally_block_ok.
  - rewrite catch_block_ok.
    rewrite finally_block_ok by by rewrite extend_present.
    by rewrite extend_app.
Qed.

End Click.

Section Runs.
Context {number : Type}.
Variable Number_toString : number → string.
Variable Number_toBoolean : number → bool.
Variable server : request → fetch_result number.

Local Abbreviation run := (run Number_toString Number_toBoolean server).
Local Abbreviation cycle := (cycle Number_toString Number_toBoolean).

(** Every click either runs one request cycle or throws before the
    request. *)
Lemma click_cases (h : heap) btn :
  h !! calcBtn = Some btn →
  (∃ area display sel pth evs,
      h !! resultArea = Some area ∧ h !! resultDisplay = Some display ∧
      h !! citySelect = Some sel ∧
      cycle (server (assess_request {| city := value sel |})) pth evs ∧
      run h = (Return tt,
               extend {| doc := h; log := [] |}
                 (reset_events ++
                  Fetch (assess_request {| city := value sel |}) :: evs ++ restore_events))) ∨
  (∃ evs,
      run h = (Throw TypeError, extend {| doc := h; log := [] |} evs) ∧
      ((h !! resultArea = None ∧ evs = take 2 reset_events) ∨
       (present resultArea h ∧ h !! resultDisplay = None ∧ evs = take 3 reset_events) ∨
       (present resultArea h ∧ present resultDisplay h ∧ h !! citySelect = None ∧
        evs = reset_events))).
Proof.
  intros Hb.
  assert (present calcBtn h) as Pb by (unfold present; by rewrite Hb).
  assert (Decision (present resultArea h ∧ present resultDisplay h ∧
                    present citySelect h)) as [Hall|Hnot]
    by (unfold present; apply _).
  - left. destruct Hall as ([area Ha] & [display Hd] & [sel Hc]).
    exists area, display, sel.
    destruct (click_cycle Number_toString Number_toBoolean server h sel)
      as (pth & evs & Hcy & Hrun); unfold present; rewrite ?Ha, ?Hd; eauto.
    exists pth, evs. by repeat split.
  - right. by apply click_abort.
Qed.

(** The run on the server-error branch. *)
Lemma run_error (h : heap) btn area display sel data err :
  h !! calcBtn = Some btn → h !! resultArea = Some area →
  h !! resultDisplay = Some display → h !! citySelect = Some sel →
  let req := assess_request {| city := value sel |} in
  server req = Resolves (JsonBody data) →
  Get data "error" = Return err →
  ToBoolean Number_toBoolean err = true →
  run h =
    (Return tt,
     extend {| doc := h; log := [] |}
       (reset_events ++
        Fetch req ::
        match ToString Number_toString err with
        | Return message => [Alert ("Alert: " +:+ message)]
        | Throw e => catch_events e
        end ++ restore_events)).
Proof.
  intros Hb Ha Hd Hc req Hs He Ht.
  pose proof (try_block_error Number_toString Number_toBoolean server
                {| city := value sel |} (at_try h) data err Hs He Ht) as Htry.
  destruct (ToString Number_toString err) as [message|e];
    rewrite (run_of_try _ _ _ _ _ _ _ _ _ _ Hb Ha Hd Hc Htry);
    unfold at_try; by rewrite !extend_app.
Qed.

(** The run on a well-formed success response. *)
Lemma run_success (h : heap) btn area display sel data temp rh dew wind vis pressure markup :
  h !! calcBtn = Some btn → h !! resultArea = Some area →
  h !! resultDisplay = Some display → h !! citySelect = Some sel →
  let req := assess_request {| city := value sel |} in
  server req = Resolves (JsonBody data) →
  well_formed data temp rh dew wind vis pressure markup →
  run h =
    (Return tt,
     {| doc := replay (reveal_events markup ++ restore_events)
                 (summary_writes Number_toString temp rh dew wind vis pressure
                    (replay reset_events h));
        log := reset_events ++ Fetch req ::
               summary_events Number_toString h temp rh dew wind vis pressure ++
               reveal_events markup ++ restore_events |}).
Proof.
  intros Hb Ha Hd Hc req Hs Hwf.
  erewrite run_of_try; [|done..|]; last first.
  { unfold try_block. unfold bind at 1. rewrite fetch_ok. fold req. rewrite Hs.
    unfold json, ret, lift, bind at 1 2.
    rewrite (wf_error _ _ _ _ _ _ _ _ Hwf). cbn [ToBoolean].
    erewrite bind_return by by eapply inject_summary_ok.
    eapply show_results_ok; [..|apply (wf_result _ _ _ _ _ _ _ _ Hwf)|reflexivity];
      unfold present; cbn [doc];
      unfold summary_writes; rewrite !lookup_alter_is_Some;
      apply (replay_present [Fetch req]); apply (replay_present reset_events);
      by eexists. }
  rewrite extend_app. unfold extend, at_try, extend; cbn [doc log].
  rewrite app_nil_l. f_equal. f_equal.
  unfold summary_events. rewrite !field_event_replay.
  by rewrite <- !app_assoc.
Qed.

Lemma click_emits :
  emits (λ _, True) (click Number_toString Number_toBoolean server).
Proof.
  unfold click, busy_reset, try_block, catch_block, finally_block, show_error,
    show_results, fetch, json, console_error, alert, set_innerText, set_disabled,
    set_innerHTML, classList_add, classList_remove, scrollIntoView.
  repeat first
    [ apply emits_write; done
    | apply emits_emit; done
    | apply emits_lift
    | apply emits_ret
    | apply emits_throw
    | apply emits_get_value
    | apply (emits_weaken field_write); [done|apply inject_summary_emits]
    | apply emits_try
    | apply emits_bind
    | match goal with
      | |- ∀ _, _ => intro
      | |- emits _ (match ?x with _ => _ end) => destruct x
      end ].
Qed.

(** The log is faithful: the document a click leaves is the document it
    started from with the logged events replayed in order. *)
Lemma run_replay h :
  let r := run h in
  doc r.2 = replay (log r.2) h.
Proof.
  intros r. subst r. unfold run.
  destruct (click _ _ _ _) as [r s'] eqn:E.
  by destruct (click_emits _ _ _ E) as (evs & -> & _).
Qed.

End Runs.

(** ** The properties of a click *)

Section Properties.
Context {number : Type}.
Variable Number_toString : number → string.
Variable Number_toBoolean : number → bool.
Variable server : request → fetch_result number.

Local Abbreviation run := (run Number_toString Number_toBoolean server).
Local Abbreviation cycle := (cycle Number_toString Number_toBoolean).

(** C1, as amended.  On a page that has the results container, the results
    display and the city selector, a click returns normally whichever way
    the request cycle ends (server error, success or thrown failure); the
    last two writes of the run put the label back to the original action
    text and re-enable the button, no earlier write does either, and the
    button ends idle. *)
Theorem control_restored_once (h : heap) btn area display sel :
  h !! calcBtn = Some btn → h !! resultArea = Some area →
  h !! resultDisplay = Some display → h !! citySelect = Some sel →
  let req := assess_request {| city := value sel |} in
  let r := run h in
  r.1 = Return tt ∧
  (∃ pth evs, cycle (server req) pth evs ∧
     log r.2 = (reset_events ++ Fetch req :: evs) ++ restore_events ∧
     Forall (λ ev, ¬ restores ev) (reset_events ++ Fetch req :: evs)) ∧
  (∃ btn', doc r.2 !! calcBtn = Some btn' ∧ idle btn').
Proof.
  intros Hb Ha Hd Hc req r.
  destruct (click_cycle Number_toString Number_toBoolean server h sel)
    as (pth & evs & Hcy & Hrun); unfold present; rewrite ?Hb, ?Ha, ?Hd; eauto.
  subst r. fold req in Hrun. rewrite Hrun. cbn [fst snd].
  destruct (cycle_quiet _ _ _ _ _ Hcy) as (_ & Hr & Ht).
  split; [done|]. split.
  - exists pth, evs. split; [done|]. unfold extend; cbn [log].
    split; [by rewrite <- !app_assoc|].
    apply Forall_app. split; [|constructor; [|done]].
    + repeat constructor; by intros [[=]|[=]].
    + by intros [[=]|[=]].
  - unfold extend; cbn [doc].
    replace (reset_events ++ Fetch req :: evs ++ restore_events)
      with ((reset_events ++ Fetch req :: evs) ++ restore_events)
      by by rewrite <- !app_assoc.
    rewrite replay_app.
    assert (present calcBtn (replay (reset_events ++ Fetch req :: evs) h)) as [b Hb'].
    { apply replay_present. unfold present. by rewrite Hb. }
    by eapply idle_after_restore.
Qed.

(** C2, as amended.  When the parsed response has an [error] field whose
    value is truthy and prints as [x] (for a string: a non-empty string
    [x]), the only notification of the cycle is ["Alert: " ++ x], the
    handler writes nothing between the request and the cleanup, so the six
    summary elements keep what they held, and the results container ends
    hidden with an empty display. *)
Theorem error_alert (h : heap) btn area display sel data err x :
  h !! calcBtn = Some btn → h !! resultArea = Some area →
  h !! resultDisplay = Some display → h !! citySelect = Some sel →
  let req := assess_request {| city := value sel |} in
  server req = Resolves (JsonBody data) →
  Get data "error" = Return err →
  ToBoolean Number_toBoolean err = true →
  ToString Number_toString err = Return x →
  let r := run h in
  log r.2 = reset_events ++ [Fetch req; Alert ("Alert: " +:+ x)] ++ restore_events ∧
  alerts (log r.2) = ["Alert: " +:+ x] ∧
  (∀ w, w ∈ summary_ids → doc r.2 !! w = h !! w) ∧
  (∃ area', doc r.2 !! resultArea = Some area' ∧ is_hidden area') ∧
  (∃ display', doc r.2 !! resultDisplay = Some display' ∧ innerHTML display' = "").
Proof.
  intros Hb Ha Hd Hc req Hs He Ht Hx r. subst r.
  rewrite (run_error Number_toString Number_toBoolean server h _ _ _ _ _ _
             Hb Ha Hd Hc Hs He Ht), Hx.
  fold req.
  unfold extend; cbn [snd doc log]. rewrite app_nil_l.
  split; [done|]. split; [done|].
  change (reset_events ++ Fetch req :: [Alert ("Alert: " +:+ x)] ++ restore_events)
    with (reset_events ++ [Fetch req; Alert ("Alert: " +:+ x)] ++ restore_events).
  rewrite replay_app. split_and!.
  - intros w Hw. rewrite replay_other, replay_reset_summary; [done..|].
    apply summary_ids_other in Hw as (? & _).
    repeat constructor; simpl; congruence.
  - rewrite replay_other by (repeat constructor; done).
    rewrite replay_reset_area, Ha. eexists; split; [done|]. apply hidden_after_reset.
  - rewrite replay_other by (repeat constructor; done).
    rewrite replay_reset_display, Hd. by eexists.
Qed.

(** C3.  On a well-formed success response the click returns normally and
    shows no notification; each of the six summary elements that exists
    is written once, and then holds, its field's number followed by its
    unit, and one that does not exist is skipped: nothing is written for
    it and it is still absent. *)
Theorem summary_shown (h : heap) btn area display sel data
    temp rh dew wind vis pressure markup :
  h !! calcBtn = Some btn → h !! resultArea = Some area →
  h !! resultDisplay = Some display → h !! citySelect = Some sel →
  let req := assess_request {| city := value sel |} in
  server req = Resolves (JsonBody data) →
  well_formed data temp rh dew wind vis pressure markup →
  let r := run h in
  r.1 = Return tt ∧
  shown h (doc r.2) wTemp (Number_toString temp +:+ "°C") ∧
  shown h (doc r.2) wHum (Number_toString rh +:+ "%") ∧
  shown h (doc r.2) wDew (Number_toString dew +:+ "°C") ∧
  shown h (doc r.2) wWind (Number_toString wind +:+ " km/h") ∧
  shown h (doc r.2) wVis (Number_toString vis +:+ " km") ∧
  shown h (doc r.2) wPres (Number_toString pressure +:+ " hPa") ∧
  log r.2 = reset_events ++ Fetch req ::
            summary_events Number_toString h temp rh dew wind vis pressure ++
            reveal_events markup ++ restore_events ∧
  alerts (log r.2) = [] ∧ logged_errors (log r.2) = [].
Proof.
  intros Hb Ha Hd Hc req Hs Hwf r. subst r.
  rewrite (run_success Number_toString Number_toBoolean server h
             _ _ _ _ _ _ _ _ _ _ _ _ Hb Ha Hd Hc Hs Hwf).
  cbn [fst snd doc log]. fold req.
  split; [done|].
  split_and!;
    [apply fmap_shown;
     unfold replay, reveal_events, restore_events, reset_events, summary_writes;
     cbn [foldl app apply_event]; by alter_lookup..|done| |].
  - rewrite alerts_app. change (alerts (Fetch ?r :: ?l)) with (alerts l).
    unfold summary_events. rewrite !alerts_app.
    by rewrite !(proj1 (field_event_quiet _ _ _)).
  - rewrite logged_errors_app.
    change (logged_errors (Fetch ?r :: ?l)) with (logged_errors l).
    unfold summary_events. rewrite !logged_errors_app.
    by rewrite !(proj1 (proj2 (field_event_quiet _ _ _))).
Qed.


(** C5.  When the body of the [try] throws [e], in particular when [fetch]
    rejects with [e] or the body of the response is not JSON, the handler
    logs [e] under ["Fetch error:"], shows the connection-failed message
    as the only notification of the cycle, then restores the button, and
    the click itself returns normally. *)
Theorem failure_notified (h : heap) btn area display sel :
  h !! calcBtn = Some btn → h !! resultArea = Some area →
  h !! resultDisplay = Some display → h !! citySelect = Some sel →
  let req := assess_request {| city := value sel |} in
  let body := try_block Number_toString Number_toBoolean server {| city := value sel |} in
  let r := run h in
  (∀ e s, body (at_try h) = (Throw e, s) →
     r.1 = Return tt ∧
     (∃ writes, Forall field_write writes ∧
        log r.2 = reset_events ++ Fetch req :: writes ++ catch_events e ++ restore_events) ∧
     alerts (log r.2) = [connection_failed] ∧
     logged_errors (log r.2) = [("Fetch error:", e)] ∧
     (∃ btn', doc r.2 !! calcBtn = Some btn' ∧ idle btn')) ∧
  (∀ e, server req = Rejects e ∨ server req = Resolves (BadBody e) →
     body (at_try h) = (Throw e, extend (at_try h) [Fetch req])).
Proof.
  intros Hb Ha Hd Hc req body r. split.
  - intros e s Hbody. subst r body.
    rewrite (run_of_try _ _ _ h _ _ _ _ _ _ Hb Ha Hd Hc Hbody). cbn [fst snd].
    apply try_block_cases in Hbody; [|unfold at_try; rewrite extend_present;
                                      unfold present; by rewrite ?Ha, ?Hd..].
    destruct Hbody as [(? & ? & _ & _ & [=] & _)|(e' & writes & Hw & _ & [= <-] & ->)].
    fold req. destruct (field_writes_quiet _ Hw) as (Hal & _ & Hle & _ & _).
    unfold at_try. rewrite !extend_app. unfold extend; cbn [doc log]. rewrite app_nil_l.
    split; [done|]. cbn [app]. split_and!.
    + by exists writes.
    + rewrite alerts_app. change (alerts (Fetch ?q :: ?l)) with (alerts l).
      by rewrite !alerts_app, Hal.
    + rewrite logged_errors_app.
      change (logged_errors (Fetch ?q :: ?l)) with (logged_errors l).
      by rewrite !logged_errors_app, Hle.
    + change (Fetch req :: writes ++ catch_events e ++ restore_events)
        with ((Fetch req :: writes) ++ catch_events e ++ restore_events).
      rewrite !app_assoc, replay_app.
      assert (present calcBtn
                (replay ((reset_events ++ Fetch req :: writes) ++ catch_events e) h))
        as [b Hb'].
      { apply replay_present. unfold present. by rewrite Hb. }
      by eapply idle_after_restore.
  - intros e Hs. subst body. unfold try_block.
    unfold bind at 1. rewrite fetch_ok. fold req.
    by destruct Hs as [-> | ->].
Qed.

(** C6, as amended.  On a page that has the results container, the
    results display and the city selector, a click issues exactly one
    request: a POST to [/assess] whose only header is the JSON content
    type and whose body is the JSON text of the object with the single
    key [city] and the selector's current value; for a value without
    quotes, backslashes and control characters that text holds the value
    as it is, between quotes. *)
Theorem one_post_request (h : heap) btn area display sel :
  h !! calcBtn = Some btn → h !! resultArea = Some area →
  h !! resultDisplay = Some display → h !! citySelect = Some sel →
  let r := run h in
  ∃ req,
    fetches (log r.2) = [req] ∧
    url req = "/assess" ∧ method req = "POST" ∧
    headers req = [("Content-Type", "application/json")] ∧
    body req = JSON_stringify {| city := value sel |} ∧
    (plain_string (value sel) = true →
     body req = "{" +:+ quoted "city" +:+ ":" +:+ quoted (value sel) +:+ "}").
Proof.
  intros Hb Ha Hd Hc r. subst r.
  destruct (click_cycle Number_toString Number_toBoolean server h sel)
    as (pth & evs & Hcy & ->); unfold present; rewrite ?Hb, ?Ha, ?Hd; eauto.
  destruct (cycle_quiet _ _ _ _ _ Hcy) as (Hf & _ & _).
  exists (assess_request {| city := value sel |}).
  cbn [snd extend log]. split_and!; try done.
  - rewrite app_nil_l, fetches_app.
    change (fetches (Fetch ?q :: ?l)) with (q :: fetches l).
    by rewrite fetches_app, Hf.
  - intros Hp. cbn [body assess_request]. unfold JSON_stringify, QuoteJSONString.
    cbn [city]. by rewrite (quote_chars_plain _ Hp), (quote_chars_plain "city").
Qed.


(** C8, as amended.  A click makes at most one request and shows at most
    one notification, and exactly one request on a page that has the
    results container, the results display and the city selector.  The
    two notifications exclude each other: a cycle shows the server's
    error and logs nothing, or logs a failure and shows the
    connection-failed message, or shows and logs nothing. *)
Theorem one_request_one_alert (h : heap) btn :
  h !! calcBtn = Some btn →
  let r := run h in
  length (fetches (log r.2)) ≤ 1 ∧
  length (alerts (log r.2)) ≤ 1 ∧
  (alerts (log r.2) = [] ∧ logged_errors (log r.2) = [] ∨
   (∃ x, alerts (log r.2) = ["Alert: " +:+ x]) ∧ logged_errors (log r.2) = [] ∨
   alerts (log r.2) = [connection_failed] ∧
     ∃ e, logged_errors (log r.2) = [("Fetch error:", e)]) ∧
  (∀ area display sel,
      h !! resultArea = Some area → h !! resultDisplay = Some display →
      h !! citySelect = Some sel →
      fetches (log r.2) = [assess_request {| city := value sel |}]).
Proof.
  intros Hb r. subst r.
  destruct (click_cases Number_toString Number_toBoolean server h btn Hb)
    as [(area & display & sel & pth & evs & Ha & Hd & Hc & Hcy & ->)
       |(evs & -> & Hwhy)]; cbn [snd extend log]; rewrite app_nil_l.
  - destruct (cycle_quiet _ _ _ _ _ Hcy) as (Hf & _ & _).
    pose proof (cycle_notifications _ _ _ _ _ Hcy) as Hn.
    rewrite fetches_app, alerts_app, logged_errors_app.
    change (fetches (Fetch ?q :: ?l)) with (q :: fetches l).
    change (alerts (Fetch ?q :: ?l)) with (alerts l).
    change (logged_errors (Fetch ?q :: ?l)) with (logged_errors l).
    rewrite fetches_app, alerts_app, logged_errors_app, Hf.
    split; [done|].
    destruct pth as [message|markup|e]; destruct Hn as [-> ->].
    + split; [done|]. split; [right; left; eauto|].
      intros ??? Ha' Hd' Hc'. by simplify_eq.
    + split; [cbn; lia|]. split; [by left|].
      intros ??? Ha' Hd' Hc'. by simplify_eq.
    + split; [done|]. split; [right; right; eauto|].
      intros ??? Ha' Hd' Hc'. by simplify_eq.
  - assert (fetches evs = [] ∧ alerts evs = [] ∧ logged_errors evs = []) as (-> & -> & ->)
      by (by destruct Hwhy as [(_ & ->)|[(_ & _ & ->)|(_ & _ & _ & ->)]]).
    split; [cbn; lia|]. split; [cbn; lia|]. split; [by left|].
    intros area display sel Ha Hd Hc. exfalso.
    destruct Hwhy as [(Ha' & _)|[(_ & Hd' & _)|(_ & _ & Hc' & _)]]; congruence.
Qed.

(** C9, as amended.  The existence checks guard the six summary elements
    only.  On a page without the results display the handler throws a
    [TypeError] out of the reset, before the [try] is entered: no request
    is issued, nothing is shown or logged, no write restores the button,
    and the button is left disabled under the working label. *)
Theorem absent_display_aborts (h : heap) btn :
  h !! calcBtn = Some btn → h !! resultDisplay = None →
  let r := run h in
  r.1 = Throw TypeError ∧
  fetches (log r.2) = [] ∧ alerts (log r.2) = [] ∧ logged_errors (log r.2) = [] ∧
  Forall (λ ev, ¬ restores ev) (log r.2) ∧
  (∃ btn', doc r.2 !! calcBtn = Some btn' ∧ busy btn').
Proof.
  intros Hb Hd r. subst r.
  destruct (click_cases Number_toString Number_toBoolean server h btn Hb)
    as [(area & display & sel & pth & evs & _ & Hd' & _)|(evs & -> & Hwhy)];
    [congruence|].
  cbn [fst snd extend log doc]; rewrite app_nil_l.
  assert (evs = take 2 reset_events ∨ evs = take 3 reset_events ∨ evs = reset_events)
    as Hevs by (destruct Hwhy as [(_ & ->)|[(_ & _ & ->)|(_ & _ & _ & ->)]]; auto).
  split; [done|]. split_and!.
  - by destruct Hevs as [->|[->| ->]].
  - by destruct Hevs as [->|[->| ->]].
  - by destruct Hevs as [->|[->| ->]].
  - destruct Hevs as [->|[->| ->]]; unfold reset_events; cbn [take];
      list_all; by intros [[=]|[=]].
  - by eapply busy_after_reset.
Qed.

(** C10.  On the server-error branch none of the six summary elements is
    written: each holds after the click what it held before.  The earlier
    result is gone all the same: the reset cleared the display and hid the
    container before the request was issued, and nothing after the request
    writes to either. *)
Theorem error_branch_frame (h : heap) btn area display sel data err :
  h !! calcBtn = Some btn → h !! resultArea = Some area →
  h !! resultDisplay = Some display → h !! citySelect = Some sel →
  let req := assess_request {| city := value sel |} in
  server req = Resolves (JsonBody data) →
  Get data "error" = Return err →
  ToBoolean Number_toBoolean err = true →
  let r := run h in
  (∀ w, w ∈ summary_ids → doc r.2 !! w = h !! w) ∧
  Forall (λ ev, ¬ field_write ev) (log r.2) ∧
  (∃ post, log r.2 = reset_events ++ Fetch req :: post ∧
     Forall (λ ev, target ev ≠ Some resultArea ∧ target ev ≠ Some resultDisplay) post) ∧
  (∃ area', doc r.2 !! resultArea = Some area' ∧ is_hidden area') ∧
  (∃ display', doc r.2 !! resultDisplay = Some display' ∧ innerHTML display' = "").
Proof.
  intros Hb Ha Hd Hc req Hs He Ht r. subst r.
  rewrite (run_error Number_toString Number_toBoolean server h _ _ _ _ _ _
             Hb Ha Hd Hc Hs He Ht).
  fold req.
  unfold extend; cbn [snd doc log]. rewrite app_nil_l.
  set (post := Fetch req :: _ ++ restore_events).
  assert (Forall (λ ev, target ev = None ∨ target ev = Some calcBtn) post) as Hpost.
  { subst post. unfold catch_events, restore_events.
    destruct (ToString Number_toString err); cbn [app];
      repeat (apply Forall_cons_2; [simpl; auto|]); apply Forall_nil_2. }
  assert (∀ id, id ≠ calcBtn → Forall (λ ev, target ev ≠ Some id) post) as Hother.
  { intros id Hid. eapply Forall_impl; [exact Hpost|]. intros ev [-> | ->]; congruence. }
  rewrite replay_app. split_and!.
  - intros w Hw. rewrite replay_other, replay_reset_summary; [done..|].
    apply Hother. by apply summary_ids_other in Hw as (? & _).
  - apply Forall_app. split.
    + repeat constructor; intros (w & text & [=] & Hw); subst;
        by apply summary_ids_other in Hw as (? & _).
    + eapply Forall_impl; [exact Hpost|].
      intros ev Hev (w & text & -> & Hw). apply summary_ids_other in Hw as (? & _).
      destruct Hev as [Hev|Hev]; simpl in Hev; congruence.
  - exists (tail post). split; [done|].
    apply Forall_forall. intros ev Hev.
    assert (ev ∈ post) as Hin by (subst post; by right).
    pose proof (Hother resultArea ltac:(done)) as H1.
    pose proof (Hother resultDisplay ltac:(done)) as H2.
    rewrite Forall_forall in H1, H2. split; [by apply H1|by apply H2].
  - rewrite replay_other by (by apply Hother).
    rewrite replay_reset_area, Ha. eexists; split; [done|]. apply hidden_after_reset.
  - rewrite replay_other by by apply Hother.
    rewrite replay_reset_display, Hd. by eexists.
Qed.

End Properties.

(** ** The scenarios of the service contract *)

Example paris_scenario :
  let r := sample_run (Resolves (JsonBody clear_response)) sample_page in
  innerText <$> doc r.2 !! wTemp = Some "20°C" ∧
  classList <$> doc r.2 !! resultArea = Some ["card"] ∧
  innerHTML <$> doc r.2 !! resultDisplay = Some "<p>Clear</p>" ∧
  log r.2 =
    reset_events ++
    [Fetch (assess_request {| city := "Paris" |});
     SetInnerText wTemp "20°C"; SetInnerText wHum "50%"; SetInnerText wDew "10°C";
     SetInnerText wWind "5 km/h"; SetInnerText wVis "10 km";
     SetInnerText wPres "1012 hPa"] ++
    reveal_events "<p>Clear</p>" ++ restore_events.
Proof. by vm_compute. Qed.

Example not_found_scenario :
  let r := sample_run (Resolves (JsonBody not_found_response)) sample_page in
  alerts (log r.2) = ["Alert: city not found"] ∧
  classList <$> doc r.2 !! resultArea = Some ["card"; "hidden"].
Proof. by vm_compute. Qed.

Example offline_scenario :
  let r := sample_run offline sample_page in
  alerts (log r.2) = [connection_failed] ∧
  disabled <$> doc r.2 !! calcBtn = Some false.
Proof. by vm_compute. Qed.

(** Values that are no strings print as JavaScript prints them. *)
Example ToString_nested :
  ToString sample_toString
    (VArray [VNumber 1%Z; VNull; VArray [VBool true; VString "x"]; VObject []])
  = Return "1,,true,x,[object Object]".
Proof. by vm_compute. Qed.

Example ToString_shadowed :
  ToString sample_toString (VObject [("toString", VNumber 1%Z)]) = Throw TypeError.
Proof. done. Qed.

Example JSON_stringify_escapes :
  JSON_stringify {| city := String "034" (String "010" "a\") |} =
    "{" +:+ quoted "city" +:+ ":" +:+
    quoted (String "\" (String "034" ("\n" +:+ "a\\"))) +:+ "}".
Proof. by vm_compute. Qed.

(** ** The properties on the sample pages *)

Lemma control_restored_once_witness :
  let r := sample_run (Resolves (JsonBody clear_response)) sample_page in
  sample_page !! resultDisplay = Some (with_innerHTML "<p>Rain</p>" blank) ∧
  r.1 = Return tt ∧
  ∃ btn', doc r.2 !! calcBtn = Some btn' ∧ idle btn'.
Proof.
  intros r.
  destruct (control_restored_once sample_toString sample_toBoolean
              (answers (Resolves (JsonBody clear_response))) sample_page
              (with_innerText idle_label blank)
              (with_classList (λ _, ["card"]) blank)
              (with_innerHTML "<p>Rain</p>" blank)
              (city_select "Paris")
              eq_refl eq_refl eq_refl eq_refl) as (H1 & _ & H3).
  exact (conj eq_refl (conj H1 H3)).
Defined.

(** C1 as stated fails on a page without the results container: the click
    throws at line 19, outside the [try], and the button stays disabled
    under the working label. *)
Lemma control_restored_once_counterexample :
  let r := sample_run (Resolves (JsonBody clear_response)) page_without_area in
  r.1 = Throw TypeError ∧
  doc r.2 !! calcBtn =
    Some (with_disabled true (with_innerText busy_label blank)) ∧
  ¬ (∃ btn', doc r.2 !! calcBtn = Some btn' ∧ idle btn').
Proof.
  intros r. split; [by vm_compute|]. split; [by vm_compute|].
  intros (btn' & Hb & Hd & _). vm_compute in Hb. injection Hb as <-. discriminate Hd.
Qed.

Lemma error_alert_witness :
  let r := sample_run (Resolves (JsonBody not_found_response)) sample_page in
  Get not_found_response "error" = Return (VString "city not found") ∧
  alerts (log r.2) = ["Alert: city not found"] ∧
  ∃ area', doc r.2 !! resultArea = Some area' ∧ is_hidden area'.
Proof.
  intros r.
  destruct (error_alert sample_toString sample_toBoolean
              (answers (Resolves (JsonBody not_found_response))) sample_page
              (with_innerText idle_label blank)
              (with_classList (λ _, ["card"]) blank)
              (with_innerHTML "<p>Rain</p>" blank)
              (city_select "Paris")
              not_found_response (VString "city not found") "city not found"
              eq_refl eq_refl eq_refl eq_refl eq_refl eq_refl eq_refl eq_refl)
    as (_ & H2 & _ & H4 & _).
  exact (conj eq_refl (conj H2 H4)).
Defined.

(** C2 as stated fails for an [error] field that is the empty string: the
    test of line 33 takes it for absent, the success branch throws on the
    missing summary, and the notification is the connection-failed one. *)
Lemma error_alert_counterexample :
  let r := sample_run (Resolves (JsonBody empty_error_response)) sample_page in
  Get empty_error_response "error" = Return (VString "") ∧
  alerts (log r.2) = [connection_failed] ∧
  alerts (log r.2) ≠ ["Alert: " +:+ ""].
Proof.
  intros r. split; [done|]. split; [by vm_compute|].
  intros H. vm_compute in H. discriminate H.
Qed.

Lemma summary_shown_witness :
  let r := sample_run (Resolves (JsonBody clear_response)) page_without_humidity in
  well_formed clear_response 20%Z 50%Z 10%Z 5%Z 10%Z 1012%Z "<p>Clear</p>" ∧
  r.1 = Return tt ∧
  (∃ el', doc r.2 !! wTemp = Some el' ∧ innerText el' = "20°C") ∧
  doc r.2 !! wHum = None ∧
  alerts (log r.2) = [].
Proof.
  intros r.
  assert (well_formed clear_response 20%Z 50%Z 10%Z 5%Z 10%Z 1012%Z "<p>Clear</p>") as Hwf.
  { split; [reflexivity| |reflexivity]. eexists. repeat split; reflexivity. }
  destruct (summary_shown sample_toString sample_toBoolean
              (answers (Resolves (JsonBody clear_response))) page_without_humidity
              (with_innerText idle_label blank)
              (with_classList (λ _, ["card"]) blank)
              (with_innerHTML "<p>Rain</p>" blank)
              (city_select "Paris")
              clear_response 20%Z 50%Z 10%Z 5%Z 10%Z 1012%Z "<p>Clear</p>"
              eq_refl eq_refl eq_refl eq_refl eq_refl Hwf)
    as (H1 & H2 & H3 & _ & _ & _ & _ & _ & H9 & _).
  split; [exact Hwf|]. split; [exact H1|]. split; [exact H2|]. split; [exact H3|exact H9].
Defined.


Lemma failure_notified_witness :
  let r := sample_run offline sample_page in
  r.1 = Return tt ∧
  alerts (log r.2) = [connection_failed] ∧
  logged_errors (log r.2) = [("Fetch error:", Rejected "TypeError" "Failed to fetch")] ∧
  ∃ btn', doc r.2 !! calcBtn = Some btn' ∧ idle btn'.
Proof.
  intros r.
  destruct (failure_notified sample_toString sample_toBoolean (answers offline) sample_page
              (with_innerText idle_label blank)
              (with_classList (λ _, ["card"]) blank)
              (with_innerHTML "<p>Rain</p>" blank)
              (city_select "Paris")
              eq_refl eq_refl eq_refl eq_refl) as (Hthrow & Hnet).
  destruct (Hthrow _ _ (Hnet (Rejected "TypeError" "Failed to fetch") (or_introl eq_refl)))
    as (H1 & _ & H3 & H4 & H5).
  exact (conj H1 (conj H3 (conj H4 H5))).
Defined.

Lemma one_post_request_witness :
  let r := sample_run (Resolves (JsonBody clear_response)) sample_page in
  sample_page !! citySelect = Some (city_select "Paris") ∧
  ∃ req, fetches (log r.2) = [req] ∧
    url req = "/assess" ∧ method req = "POST" ∧
    headers req = [("Content-Type", "application/json")] ∧
    body req = "{" +:+ quoted "city" +:+ ":" +:+ quoted "Paris" +:+ "}".
Proof.
  intros r.
  destruct (one_post_request sample_toString sample_toBoolean
              (answers (Resolves (JsonBody clear_response))) sample_page
              (with_innerText idle_label blank)
              (with_classList (λ _, ["card"]) blank)
              (with_innerHTML "<p>Rain</p>" blank)
              (city_select "Paris")
              eq_refl eq_refl eq_refl eq_refl)
    as (req & H1 & H2 & H3 & H4 & _ & H6).
  split; [reflexivity|].
  exists req. exact (conj H1 (conj H2 (conj H3 (conj H4 (H6 eq_refl))))).
Defined.

(** C6 as stated fails on a page without the results display: the click
    throws at line 20 and no request is issued. *)
Lemma one_post_request_counterexample :
  let r := sample_run (Resolves (JsonBody clear_response)) page_without_display in
  page_without_display !! citySelect = Some (city_select "Paris") ∧
  r.1 = Throw TypeError ∧
  fetches (log r.2) = [] ∧
  length (fetches (log r.2)) ≠ 1.
Proof.
  intros r. split; [by vm_compute|]. split; [by vm_compute|].
  split; [by vm_compute|]. vm_compute. discriminate.
Qed.



Lemma one_request_one_alert_witness :
  let r := sample_run (Resolves (JsonBody not_found_response)) sample_page in
  length (fetches (log r.2)) ≤ 1 ∧ length (alerts (log r.2)) ≤ 1 ∧
  fetches (log r.2) = [assess_request {| city := "Paris" |}].
Proof.
  intros r.
  destruct (one_request_one_alert sample_toString sample_toBoolean
              (answers (Resolves (JsonBody not_found_response))) sample_page
              (with_innerText idle_label blank) eq_refl)
    as (H1 & H2 & _ & H4).
  exact (conj H1 (conj H2 (H4 _ _ (city_select "Paris") eq_refl eq_refl eq_refl))).
Defined.

(** C8 as stated fails on a page without the city selector: the click
    throws at line 22 and makes no network call. *)
Lemma one_request_one_alert_counterexample :
  let r := sample_run (Resolves (JsonBody clear_response)) page_without_city in
  r.1 = Throw TypeError ∧
  length (fetches (log r.2)) ≠ 1.
Proof. intros r. split; [by vm_compute|]. vm_compute. discriminate. Qed.

Lemma absent_display_aborts_witness :
  let r := sample_run (Resolves (JsonBody clear_response)) page_without_display in
  page_without_display !! resultDisplay = None ∧
  r.1 = Throw TypeError ∧
  fetches (log r.2) = [] ∧ alerts (log r.2) = [] ∧
  ∃ btn', doc r.2 !! calcBtn = Some btn' ∧ busy btn'.
Proof.
  intros r.
  destruct (absent_display_aborts sample_toString sample_toBoolean
              (answers (Resolves (JsonBody clear_response))) page_without_display
              (with_innerText idle_label blank) eq_refl eq_refl)
    as (H1 & H2 & H3 & _ & _ & H6).
  exact (conj eq_refl (conj H1 (conj H2 (conj H3 H6)))).
Defined.

(** C9 as stated fails on a page without the results display and a
    well-formed success response: the success path is never reached, no
    notification is shown and the button is not restored. *)
Lemma absent_display_aborts_counterexample :
  let r := sample_run (Resolves (JsonBody clear_response)) page_without_display in
  page_without_display !! resultDisplay = None ∧
  alerts (log r.2) ≠ [connection_failed] ∧
  ¬ (∃ btn', doc r.2 !! calcBtn = Some btn' ∧ idle btn').
Proof.
  intros r. split; [by vm_compute|]. split.
  - intros H. vm_compute in H. discriminate H.
  - intros (btn' & Hb & Hd & _). vm_compute in Hb. injection Hb as <-. discriminate Hd.
Qed.

Lemma error_branch_frame_witness :
  let r := sample_run (Resolves (JsonBody not_found_response)) sample_page in
  ToBoolean sample_toBoolean (VString "city not found") = true ∧
  (∀ w, w ∈ summary_ids → doc r.2 !! w = sample_page !! w) ∧
  ∃ display', doc r.2 !! resultDisplay = Some display' ∧ innerHTML display' = "".
Proof.
  intros r.
  destruct (error_branch_frame sample_toString sample_toBoolean
              (answers (Resolves (JsonBody not_found_response))) sample_page
              (with_innerText idle_label blank)
              (with_classList (λ _, ["card"]) blank)
              (with_innerHTML "<p>Rain</p>" blank)
              (city_select "Paris")
              not_found_response (VString "city not found")
              eq_refl eq_refl eq_refl eq_refl eq_refl eq_refl eq_refl)
    as (H1 & _ & _ & _ & H5).
  exact (conj eq_refl (conj H1 H5)).
Defined.

(** ** What a click writes and what it leaves alone *)

Lemma token_add_other tok toks t : t ≠ tok → t ∈ token_add tok toks ↔ t ∈ toks.
Proof.
  intros Hne. unfold token_add. case_bool_decide; [done|].
  rewrite elem_of_app, list_elem_of_singleton. tauto.
Qed.

Lemma token_remove_other tok toks t : t ≠ tok → t ∈ token_remove tok toks ↔ t ∈ toks.
Proof. intros Hne. unfold token_remove. rewrite list_elem_of_filter. tauto. Qed.

Lemma kept_refl id el : kept id el el.
Proof. by repeat split. Qed.

Lemma kept_trans id el1 el2 el3 : kept id el1 el2 → kept id el2 el3 → kept id el1 el3.
Proof.
  intros (H1 & H2 & H3) (K1 & K2 & K3).
  split_and!.
  - intros Hb. by rewrite K1, H1.
  - intros Ha. by rewrite K2, H2.
  - intros tok Ht. by rewrite K3, H3.
Qed.

Lemma apply_event_kept ev (h : heap) id el :
  well_targeted ev → h !! id = Some el →
  ∃ el', apply_event ev h !! id = Some el' ∧ kept id el el'.
Proof.
  intros Hw Hl.
  destruct ev as [i t|i b|i t|i t|i m| | | |]; simpl in *;
    try (exists el; split; [done|apply kept_refl]);
    (destruct (decide (i = id)) as [->|Hne];
     [rewrite lookup_alter_eq, Hl; simpl; eexists; split; [done|]
     |rewrite lookup_alter_ne by done; exists el; split; [done|apply kept_refl]]).
  - by repeat split.
  - subst. by repeat split.
  - destruct Hw as [-> ->]. repeat split; try done; simpl; by apply token_add_other.
  - destruct Hw as [-> ->]. repeat split; try done; simpl; by apply token_remove_other.
  - by repeat split.
Qed.

Lemma replay_kept evs (h : heap) id el :
  Forall well_targeted evs → h !! id = Some el →
  ∃ el', replay evs h !! id = Some el' ∧ kept id el el'.
Proof.
  intros Hall. revert h el. induction Hall as [|ev evs Hev _ IH]; intros h el Hl.
  - exists el. split; [done|apply kept_refl].
  - change (replay (ev :: evs) h) with (replay evs (apply_event ev h)).
    destruct (apply_event_kept ev h id el Hev Hl) as (el1 & Hl1 & K1).
    destruct (IH _ _ Hl1) as (el2 & Hl2 & K2).
    exists el2. split; [done|]. by eapply kept_trans.
Qed.

Section Frame.
Context {number : Type}.
Variable Number_toString : number → string.
Variable Number_toBoolean : number → bool.
Variable server : request → fetch_result number.

Local Abbreviation run := (run Number_toString Number_toBoolean server).

Lemma field_write_well_targeted ev : field_write ev → well_targeted ev.
Proof. intros (w & text & -> & Hw). by right. Qed.

Lemma click_well_targeted :
  emits well_targeted (click Number_toString Number_toBoolean server).
Proof.
  unfold click, busy_reset, try_block, catch_block, finally_block, show_error,
    show_results, fetch, json, console_error, alert, set_innerText, set_disabled,
    set_innerHTML, classList_add, classList_remove, scrollIntoView.
  repeat first
    [ apply emits_write; simpl; by auto
    | apply emits_emit; done
    | apply emits_lift
    | apply emits_ret
    | apply emits_throw
    | apply emits_get_value
    | apply (emits_weaken field_write);
        [apply field_write_well_targeted|apply inject_summary_emits]
    | apply emits_try
    | apply emits_bind
    | match goal with
      | |- ∀ _, _ => intro
      | |- emits _ (match ?x with _ => _ end) => destruct x
      end ].
Qed.

Lemma run_well_targeted h :
  doc (run h).2 = replay (log (run h).2) h ∧ Forall well_targeted (log (run h).2).
Proof.
  unfold run. destruct (click _ _ _ _) as [r s'] eqn:E.
  by destruct (click_well_targeted _ _ _ E) as (evs & -> & Hall).
Qed.

(** X1.  Whatever the page and the answer, every write of a click goes
    through one of nine handles and is one the script spells out: one of
    the two labels or the disabled flag on the button, the class [hidden]
    added to or removed from the results container, the smooth scroll to
    the container, markup on the results display, text on a summary
    element.  Nothing is written through the handle of the city
    selector. *)
Theorem writes_as_scripted (h : heap) :
  let r := run h in
  Forall well_targeted (log r.2) ∧
  Forall (λ ev, target ev ≠ Some citySelect) (log r.2).
Proof.
  intros r. subst r. destruct (run_well_targeted h) as [_ Hall].
  split; [done|].
  eapply Forall_impl; [exact Hall|]. intros ev Hev Ht.
  destruct ev as [i t|i b|i t|i t|i m|i ? ?| | |]; simpl in *; try done;
    injection Ht as ->; try done; try (by destruct Hev); [].
  destruct Hev as [[? _]|Hs]; [done|].
  by apply summary_ids_other in Hs as (_ & _ & _ & ?).
Qed.

(** X2.  A click changes the disabled flag of no element but the button,
    and the class list of no element but the results container, where it
    concerns the class [hidden] alone: every other class the container
    had it still has, and it has gained none. *)
Theorem flags_and_classes_kept (h : heap) :
  let r := run h in
  ∀ id el, id ∈ handles → h !! id = Some el →
    ∃ el', doc r.2 !! id = Some el' ∧ kept id el el'.
Proof.
  intros r id el _. subst r. destruct (run_well_targeted h) as [-> Hall].
  by apply replay_kept.
Qed.
End Frame.


(** ** Summary fields of any kind *)

Lemma field_ok_alter {number} ts (f : element → element) i (h : heap)
    (data : jsvalue number) w key text :
  field_ok ts h data w key text → field_ok ts (alter f i h) data w key text.
Proof.
  unfold field_ok, present. rewrite lookup_alter_is_Some. auto.
Qed.

Lemma field_ok_replay {number} ts evs (h : heap) (data : jsvalue number) w key text :
  field_ok ts h data w key text → field_ok ts (replay evs h) data w key text.
Proof. unfold field_ok. rewrite replay_present. auto. Qed.

Lemma text_events_replay evs h t1 t2 t3 t4 t5 t6 :
  text_events (replay evs h) t1 t2 t3 t4 t5 t6 = text_events h t1 t2 t3 t4 t5 t6.
Proof. unfold text_events. by rewrite !field_event_replay. Qed.

Lemma text_events_quiet h t1 t2 t3 t4 t5 t6 :
  Forall field_write (text_events h t1 t2 t3 t4 t5 t6).
Proof.
  unfold text_events, field_event.
  repeat (apply Forall_app_2; [case_bool_decide; [apply Forall_singleton|apply Forall_nil_2]|]);
    [..|case_bool_decide; [apply Forall_singleton|apply Forall_nil_2]];
    eexists _, _; (split; [done|]); apply in_summary_ids; tauto.
Qed.

Section AnySummary.
Context {number : Type}.
Variable Number_toString : number → string.
Variable Number_toBoolean : number → bool.
Variable server : request → fetch_result number.

Local Abbreviation run := (run Number_toString Number_toBoolean server).

Lemma update_field_any w key suffix data text s :
  field_ok Number_toString (doc s) data w key text →
  update_field Number_toString w key suffix data s =
    (Return tt,
     {| doc := alter (with_innerText (text +:+ suffix)) w (doc s);
        log := log s ++ field_event (doc s) w (text +:+ suffix) |}).
Proof.
  intros Hok. unfold update_field, exists_, field_event, bind at 1.
  case_bool_decide as Hp.
  - destruct (Hok Hp) as (summary & x & Hs & Hk & Ht).
    unfold lift, concat_right, bind. rewrite Hs, Hk, Ht.
    unfold set_innerText. by rewrite write_present.
  - unfold ret. destruct s as [h l]; cbn [doc log].
    rewrite alter_id', app_nil_r; [done|]. by apply eq_None_not_Some.
Qed.

Lemma inject_summary_any data t1 t2 t3 t4 t5 t6 s :
  summary_ok Number_toString (doc s) data t1 t2 t3 t4 t5 t6 →
  inject_summary Number_toString data s =
    (Return tt,
     {| doc := text_writes t1 t2 t3 t4 t5 t6 (doc s);
        log := log s ++ text_events (doc s) t1 t2 t3 t4 t5 t6 |}).
Proof.
  intros [H1 H2 H3 H4 H5 H6].
  unfold inject_summary, text_events, text_writes.
  do 5 (erewrite bind_return
          by (apply update_field_any; cbn [doc]; repeat apply field_ok_alter; eassumption)).
  erewrite update_field_any by (cbn [doc]; repeat apply field_ok_alter; eassumption).
  cbn [doc log]. rewrite !field_event_alter. by rewrite <- !app_assoc.
Qed.
End AnySummary.


Section AnyRun.
Context {number : Type}.
Variable Number_toString : number → string.
Variable Number_toBoolean : number → bool.
Variable server : request → fetch_result number.

Local Abbreviation run := (run Number_toString Number_toBoolean server).

(** The body of the [try] on the success branch, up to the conversion of
    [data.result]. *)
Lemma try_block_shown p s data err t1 t2 t3 t4 t5 t6 result :
  present resultArea (doc s) → present resultDisplay (doc s) →
  server (assess_request p) = Resolves (JsonBody data) →
  Get data "error" = Return err →
  ToBoolean Number_toBoolean err = false →
  summary_ok Number_toString (doc s) data t1 t2 t3 t4 t5 t6 →
  Get data "result" = Return result →
  let s1 := {| doc := text_writes t1 t2 t3 t4 t5 t6 (doc s);
               log := log s ++ Fetch (assess_request p) ::
                      text_events (doc s) t1 t2 t3 t4 t5 t6 |} in
  try_block Number_toString Number_toBoolean server p s =
    match ToDOMString_null_empty Number_toString result with
    | Return markup => (Return tt, extend s1 (reveal_events markup))
    | Throw e => (Throw e, s1)
    end.
Proof.
  intros Ha Hd Hs He Hb Hok Hr s1. unfold try_block.
  unfold bind at 1. rewrite fetch_ok, Hs.
  unfold json, ret, lift, bind at 1 2. rewrite He, Hb.
  erewrite bind_return; last first.
  { apply inject_summary_any. unfold extend; cbn [doc].
    destruct Hok. split; by apply (field_ok_replay _ [Fetch (assess_request p)]). }
  unfold extend at 1 2 3; cbn [doc log].
  rewrite (text_events_replay [Fetch (assess_request p)]).
  change (replay [Fetch (assess_request p)] (doc s)) with (doc s).
  replace ((log s ++ [Fetch (assess_request p)]) ++ text_events (doc s) t1 t2 t3 t4 t5 t6)
    with (log s1) by (subst s1; cbn [log]; by rewrite <- app_assoc).
  change (text_writes t1 t2 t3 t4 t5 t6 (doc s)) with (doc s1).
  assert (present resultArea (doc s1) ∧ present resultDisplay (doc s1)) as [Ha1 Hd1].
  { subst s1; cbn [doc]. unfold text_writes, present.
    by rewrite !lookup_alter_is_Some. }
  replace {| doc := doc s1; log := log s1 |} with s1 by by destruct s1.
  destruct (ToDOMString_null_empty Number_toString result) as [markup|e] eqn:Hm.
  - by apply show_results_ok with result.
  - unfold show_results, lift. rewrite Hr. erewrite bind_return by reflexivity.
    rewrite Hm. by erewrite bind_throw by reflexivity.
Qed.

(** The run on the success branch. *)
Lemma run_shown (h : heap) btn area display sel data err t1 t2 t3 t4 t5 t6 result :
  h !! calcBtn = Some btn → h !! resultArea = Some area →
  h !! resultDisplay = Some display → h !! citySelect = Some sel →
  let req := assess_request {| city := value sel |} in
  server req = Resolves (JsonBody data) →
  Get data "error" = Return err →
  ToBoolean Number_toBoolean err = false →
  summary_ok Number_toString h data t1 t2 t3 t4 t5 t6 →
  Get data "result" = Return result →
  let tail := match ToDOMString_null_empty Number_toString result with
              | Return markup => reveal_events markup
              | Throw e => catch_events e
              end ++ restore_events in
  run h =
    (Return tt,
     {| doc := replay tail (text_writes t1 t2 t3 t4 t5 t6 (replay reset_events h));
        log := reset_events ++ Fetch req :: text_events h t1 t2 t3 t4 t5 t6 ++ tail |}).
Proof.
  intros Hb Ha Hd Hc req Hs He Hf Hok Hr tail.
  assert (present resultArea (doc (at_try h)) ∧ present resultDisplay (doc (at_try h)))
    as [Pa Pd].
  { unfold at_try. rewrite !extend_present. unfold present; cbn [doc]. by rewrite Ha, Hd. }
  assert (summary_ok Number_toString (doc (at_try h)) data t1 t2 t3 t4 t5 t6) as Hok'.
  { unfold at_try, extend; cbn [doc]. destruct Hok. split; by apply field_ok_replay. }
  pose proof (try_block_shown {| city := value sel |} (at_try h) data err
                t1 t2 t3 t4 t5 t6 result Pa Pd Hs He Hf Hok' Hr) as Htry.
  cbn zeta in Htry. subst tail.
  destruct (ToDOMString_null_empty Number_toString result) as [markup|e];
    rewrite (run_of_try _ _ _ _ _ _ _ _ _ _ Hb Ha Hd Hc Htry);
    rewrite ?extend_app; unfold at_try, extend; cbn [doc log];
    rewrite app_nil_l, (text_events_replay reset_events);
    fold req; by rewrite <- ?app_assoc.
Qed.
End AnyRun.


Lemma token_remove_add_other tok toks t :
  t ≠ tok → t ∈ token_remove tok (token_add tok toks) ↔ t ∈ toks.
Proof.
  intros Hne. unfold token_remove, token_add. rewrite list_elem_of_filter.
  case_bool_decide; [tauto|]. rewrite elem_of_app, list_elem_of_singleton. tauto.
Qed.

Lemma Get_defined {number} (data : jsvalue number) key x key' :
  Get data key = Return x → ∃ y, Get data key' = Return y.
Proof. destruct data; simpl; intros [=]; eauto. Qed.

Lemma field_event_absent (h : heap) w text : h !! w = None → field_event h w text = [].
Proof.
  intros Hn. unfold field_event. rewrite bool_decide_eq_false_2; [done|].
  rewrite Hn. by intros [? [=]].
Qed.

Lemma text_events_absent h t1 t2 t3 t4 t5 t6 :
  (∀ w, w ∈ summary_ids → h !! w = None) → text_events h t1 t2 t3 t4 t5 t6 = [].
Proof.
  intros Hn. unfold text_events.
  by rewrite !field_event_absent by (apply Hn, in_summary_ids; tauto).
Qed.

Section Shown.
Context {number : Type}.
Variable Number_toString : number → string.
Variable Number_toBoolean : number → bool.
Variable server : request → fetch_result number.

Local Abbreviation run := (run Number_toString Number_toBoolean server).

(** X3.  When the response has no truthy [error], every summary element
    that exists has a printable field and [data.result] converts to
    [markup], the click returns normally without a notification: the
    display holds [markup], the container has lost the [hidden] class and
    kept every other class, and injection, reveal and scroll are the last
    three events before the cleanup. *)
Theorem results_shown (h : heap) btn area display sel data err
    t1 t2 t3 t4 t5 t6 result markup :
  h !! calcBtn = Some btn → h !! resultArea = Some area →
  h !! resultDisplay = Some display → h !! citySelect = Some sel →
  server (assess_request {| city := value sel |}) = Resolves (JsonBody data) →
  Get data "error" = Return err →
  ToBoolean Number_toBoolean err = false →
  summary_ok Number_toString h data t1 t2 t3 t4 t5 t6 →
  Get data "result" = Return result →
  ToDOMString_null_empty Number_toString result = Return markup →
  let r := run h in
  r.1 = Return tt ∧ alerts (log r.2) = [] ∧
  (∃ display', doc r.2 !! resultDisplay = Some display' ∧ innerHTML display' = markup) ∧
  (∃ area', doc r.2 !! resultArea = Some area' ∧ ¬ is_hidden area' ∧
     ∀ tok, tok ≠ "hidden" → tok ∈ classList area' ↔ tok ∈ classList area) ∧
  (∃ pre, log r.2 =
     pre ++ [SetInnerHTML resultDisplay markup; ClassListRemove resultArea "hidden";
             ScrollIntoView resultArea "smooth" "start"] ++ restore_events).
Proof.
  intros Hb Ha Hd Hc Hs He Hf Hok Hr Hm r. subst r.
  rewrite (run_shown Number_toString Number_toBoolean server h
             _ _ _ _ _ _ _ _ _ _ _ _ _ Hb Ha Hd Hc Hs He Hf Hok Hr), Hm.
  cbn [fst snd doc log]. split; [done|]. split_and!.
  - destruct (field_writes_quiet _ (text_events_quiet h t1 t2 t3 t4 t5 t6)) as (Hal & _).
    rewrite alerts_app. change (alerts (Fetch ?q :: ?l)) with (alerts l).
    by rewrite !alerts_app, Hal.
  - unfold replay, reveal_events, restore_events, reset_events, text_writes;
      cbn [foldl app apply_event]. alter_lookup. rewrite Hd. by eexists.
  - unfold replay, reveal_events, restore_events, reset_events, text_writes;
      cbn [foldl app apply_event]. alter_lookup. rewrite Ha. cbn.
    eexists; split; [done|]. split.
    + apply token_remove_elem.
    + intros tok Hne. cbn. by apply token_remove_add_other.
  - eexists (reset_events ++ Fetch _ :: text_events h t1 t2 t3 t4 t5 t6).
    by rewrite <- app_assoc.
Qed.

(** X4.  The six summary elements show whatever their fields print as, not
    only numbers, each followed by its unit: an element that exists is
    written once, right after the request, and holds that text at the
    end; an element that is absent does not need its field at all and is
    not written.  This is so even when the conversion of [data.result]
    fails afterwards. *)
Theorem summary_shows_any (h : heap) btn area display sel data err t1 t2 t3 t4 t5 t6 :
  h !! calcBtn = Some btn → h !! resultArea = Some area →
  h !! resultDisplay = Some display → h !! citySelect = Some sel →
  let req := assess_request {| city := value sel |} in
  server req = Resolves (JsonBody data) →
  Get data "error" = Return err →
  ToBoolean Number_toBoolean err = false →
  summary_ok Number_toString h data t1 t2 t3 t4 t5 t6 →
  let r := run h in
  r.1 = Return tt ∧
  shown h (doc r.2) wTemp (t1 +:+ "°C") ∧
  shown h (doc r.2) wHum (t2 +:+ "%") ∧
  shown h (doc r.2) wDew (t3 +:+ "°C") ∧
  shown h (doc r.2) wWind (t4 +:+ " km/h") ∧
  shown h (doc r.2) wVis (t5 +:+ " km") ∧
  shown h (doc r.2) wPres (t6 +:+ " hPa") ∧
  ∃ tail, log r.2 = reset_events ++ Fetch req :: text_events h t1 t2 t3 t4 t5 t6 ++ tail ∧
          Forall (λ ev, ∀ w, w ∈ summary_ids → target ev ≠ Some w) tail.
Proof.
  intros Hb Ha Hd Hc req Hs He Hf Hok r. subst r.
  destruct (Get_defined data "error" err "result" He) as [result Hr].
  rewrite (run_shown Number_toString Number_toBoolean server h
             _ _ _ _ _ _ _ _ _ _ _ _ _ Hb Ha Hd Hc Hs He Hf Hok Hr).
  cbn [fst snd doc log]. fold req. split; [done|].
  destruct (ToDOMString_null_empty Number_toString result) as [markup|e];
    (split_and!;
     [apply fmap_shown;
      unfold replay, reveal_events, catch_events, restore_events, reset_events,
        text_writes;
      cbn [foldl app apply_event]; by alter_lookup..|]);
    eexists; (split; [done|]);
    unfold reveal_events, catch_events, restore_events; cbn [app];
    list_all; intros w (? & ? & ? & _)%summary_ids_other; simpl; congruence.
Qed.

(** X5.  A failure after the summary was written is not rolled back: when
    the conversion of [data.result] throws [e], the writes of the summary
    fields stay in the log and nothing after them touches those elements,
    while the user sees the connection-failed message and a hidden, empty
    result. *)
Theorem late_failure_keeps_summary (h : heap) btn area display sel data err
    t1 t2 t3 t4 t5 t6 result e :
  h !! calcBtn = Some btn → h !! resultArea = Some area →
  h !! resultDisplay = Some display → h !! citySelect = Some sel →
  let req := assess_request {| city := value sel |} in
  server req = Resolves (JsonBody data) →
  Get data "error" = Return err →
  ToBoolean Number_toBoolean err = false →
  summary_ok Number_toString h data t1 t2 t3 t4 t5 t6 →
  Get data "result" = Return result →
  ToDOMString_null_empty Number_toString result = Throw e →
  let r := run h in
  log r.2 = reset_events ++ Fetch req :: text_events h t1 t2 t3 t4 t5 t6 ++
            catch_events e ++ restore_events ∧
  alerts (log r.2) = [connection_failed] ∧
  (∃ area', doc r.2 !! resultArea = Some area' ∧ is_hidden area') ∧
  (∃ display', doc r.2 !! resultDisplay = Some display' ∧ innerHTML display' = "").
Proof.
  intros Hb Ha Hd Hc req Hs He Hf Hok Hr Hm r. subst r.
  rewrite (run_shown Number_toString Number_toBoolean server h
             _ _ _ _ _ _ _ _ _ _ _ _ _ Hb Ha Hd Hc Hs He Hf Hok Hr), Hm.
  cbn [fst snd doc log]. split; [done|]. split_and!.
  - destruct (field_writes_quiet _ (text_events_quiet h t1 t2 t3 t4 t5 t6)) as (Hal & _).
    rewrite alerts_app. change (alerts (Fetch ?q :: ?l)) with (alerts l).
    by rewrite !alerts_app, Hal.
  - unfold replay, catch_events, restore_events, reset_events, text_writes;
      cbn [foldl app apply_event]. alter_lookup. rewrite Ha. cbn.
    eexists; split; [done|]. apply token_add_elem.
  - unfold replay, catch_events, restore_events, reset_events, text_writes;
      cbn [foldl app apply_event]. alter_lookup. rewrite Hd. by eexists.
Qed.

(** X6.  On a page with none of the six summary elements the response
    needs no [weather_summary]: [data.weather_summary] is never evaluated,
    and a response without a truthy [error] has its [result] injected and
    revealed. *)
Theorem summary_not_needed (h : heap) btn area display sel data err result markup :
  h !! calcBtn = Some btn → h !! resultArea = Some area →
  h !! resultDisplay = Some display → h !! citySelect = Some sel →
  (∀ w, w ∈ summary_ids → h !! w = None) →
  let req := assess_request {| city := value sel |} in
  server req = Resolves (JsonBody data) →
  Get data "error" = Return err →
  ToBoolean Number_toBoolean err = false →
  Get data "result" = Return result →
  ToDOMString_null_empty Number_toString result = Return markup →
  let r := run h in
  r.1 = Return tt ∧
  log r.2 = reset_events ++ Fetch req :: reveal_events markup ++ restore_events.
Proof.
  intros Hb Ha Hd Hc Hn req Hs He Hf Hr Hm r. subst r.
  assert (summary_ok Number_toString h data "" "" "" "" "" "") as Hok.
  { split; intros [el Hp]; rewrite Hn in Hp; try done; apply in_summary_ids; tauto. }
  rewrite (run_shown Number_toString Number_toBoolean server h
             _ _ _ _ _ _ _ _ _ _ _ _ _ Hb Ha Hd Hc Hs He Hf Hok Hr), Hm.
  cbn [fst snd log]. split; [done|]. by rewrite text_events_absent.
Qed.
End Shown.


(** ** Responses the handler cannot use *)

Section Unusable.
Context {number : Type}.
Variable Number_toString : number → string.
Variable Number_toBoolean : number → bool.
Variable server : request → fetch_result number.

Local Abbreviation run := (run Number_toString Number_toBoolean server).

Lemma update_field_missing w key suffix data summary s :
  Get data "weather_summary" = Return summary →
  summary = VUndefined ∨ summary = VNull →
  update_field Number_toString w key suffix data s =
    if bool_decide (is_Some (doc s !! w)) then (Throw TypeError, s) else (Return tt, s).
Proof.
  intros Hs Hnull. unfold update_field, exists_, bind at 1.
  case_bool_decide; [|done].
  unfold lift, bind. rewrite Hs. by destruct Hnull as [-> | ->].
Qed.

Lemma inject_summary_missing data summary s w :
  Get data "weather_summary" = Return summary →
  summary = VUndefined ∨ summary = VNull →
  w ∈ summary_ids → present w (doc s) →
  inject_summary Number_toString data s = (Throw TypeError, s).
Proof.
  intros Hs Hnull Hw Hp. unfold inject_summary.
  repeat (unfold bind at 1; rewrite (update_field_missing _ _ _ _ _ _ Hs Hnull);
          case_bool_decide; [done|]; cbv beta iota).
  rewrite (update_field_missing _ _ _ _ _ _ Hs Hnull).
  case_bool_decide; [done|].
  exfalso. apply in_summary_ids in Hw.
  destruct Hw as [->|[->|[->|[->|[->| ->]]]]]; contradiction.
Qed.

(** X7.  A response without a truthy [error] and without a
    [weather_summary] fails as soon as one summary element exists: reading
    the first field throws, no summary element is written, and the cycle
    ends with the connection-failed message and a hidden, empty result. *)
Theorem missing_summary_fails (h : heap) btn area display sel data err summary w :
  h !! calcBtn = Some btn → h !! resultArea = Some area →
  h !! resultDisplay = Some display → h !! citySelect = Some sel →
  let req := assess_request {| city := value sel |} in
  server req = Resolves (JsonBody data) →
  Get data "error" = Return err →
  ToBoolean Number_toBoolean err = false →
  Get data "weather_summary" = Return summary →
  summary = VUndefined ∨ summary = VNull →
  w ∈ summary_ids → present w h →
  let r := run h in
  r.1 = Return tt ∧
  log r.2 = reset_events ++ Fetch req :: catch_events TypeError ++ restore_events ∧
  alerts (log r.2) = [connection_failed] ∧
  (∀ w', w' ∈ summary_ids → doc r.2 !! w' = h !! w').
Proof.
  intros Hb Ha Hd Hc req Hs He Hf Hsum Hnull Hw Hp r. subst r.
  erewrite run_of_try; [|done..|]; last first.
  { unfold try_block. unfold bind at 1. rewrite fetch_ok. fold req. rewrite Hs.
    unfold json, ret, lift, bind at 1 2. rewrite He, Hf.
    erewrite bind_throw; [done|].
    eapply inject_summary_missing; [done..|].
    unfold at_try. by rewrite !extend_present. }
  unfold at_try. rewrite !extend_app. unfold extend; cbn [fst snd doc log].
  rewrite app_nil_l. split; [done|]. split; [done|]. split; [done|].
  intros w' Hw'. rewrite replay_app, replay_other, replay_reset_summary; [done..|].
  apply summary_ids_other in Hw' as (? & _).
  unfold catch_events, restore_events. cbn [app]. list_all; simpl; congruence.
Qed.

(** X8.  A truthy [error] that has no string form is not shown: the
    concatenation of line 34 throws before [alert] is called, and the only
    notification of the cycle is the connection-failed message. *)
Theorem unprintable_error (h : heap) btn area display sel data err e :
  h !! calcBtn = Some btn → h !! resultArea = Some area →
  h !! resultDisplay = Some display → h !! citySelect = Some sel →
  let req := assess_request {| city := value sel |} in
  server req = Resolves (JsonBody data) →
  Get data "error" = Return err →
  ToBoolean Number_toBoolean err = true →
  ToString Number_toString err = Throw e →
  let r := run h in
  log r.2 = reset_events ++ Fetch req :: catch_events e ++ restore_events ∧
  alerts (log r.2) = [connection_failed] ∧
  logged_errors (log r.2) = [("Fetch error:", e)].
Proof.
  intros Hb Ha Hd Hc req Hs He Ht Hx r. subst r.
  rewrite (run_error Number_toString Number_toBoolean server h _ _ _ _ _ _
             Hb Ha Hd Hc Hs He Ht), Hx.
  by unfold extend; cbn [snd log].
Qed.

Lemma run_without_button (h : heap) :
  h !! calcBtn = None → run h = (Throw TypeError, {| doc := h; log := [] |}).
Proof.
  intros Hn. unfold run, click, busy_reset, set_innerText.
  erewrite bind_throw; [done|]. erewrite bind_throw; [done|].
  by apply write_absent.
Qed.

(** X9.  Whatever the server answers, a click returns normally exactly
    when the page has the button, the results container, the results
    display and the city selector.  Otherwise it throws a [TypeError]
    before any request is issued, shows nothing and logs nothing. *)
Theorem completes_iff_core_present (h : heap) :
  let r := run h in
  (r.1 = Return tt ↔
     present calcBtn h ∧ present resultArea h ∧ present resultDisplay h ∧
     present citySelect h) ∧
  (r.1 ≠ Return tt →
     r.1 = Throw TypeError ∧ fetches (log r.2) = [] ∧ alerts (log r.2) = [] ∧
     logged_errors (log r.2) = []).
Proof.
  intros r. subst r.
  destruct (h !! calcBtn) as [btn|] eqn:Hb.
  - destruct (click_cases Number_toString Number_toBoolean server h btn Hb)
      as [(area & display & sel & pth & evs & Ha & Hd & Hc & Hcy & ->)
         |(evs & -> & Hwhy)]; cbn [fst snd extend log]; rewrite ?app_nil_l.
    + split; [|done]. split; [|done]. intros _. unfold present.
      by rewrite Hb, Ha, Hd, Hc.
    + split.
      * split; [done|]. intros (_ & Pa & Pd & Pc).
        destruct Hwhy as [(Hn & _)|[(_ & Hn & _)|(_ & _ & Hn & _)]];
          apply absent_not_present in Hn; contradiction.
      * intros _.
        by destruct Hwhy as [(_ & ->)|[(_ & _ & ->)|(_ & _ & _ & ->)]].
  - rewrite (run_without_button h Hb); cbn [fst snd log]. split; [|done].
    split; [done|]. intros ([? Hp] & _). congruence.
Qed.
End Unusable.


(** ** The request body *)

Lemma quote_char_app c rest rest' :
  (quote_char c +:+ rest) +:+ rest' = quote_char c +:+ (rest +:+ rest').
Proof. destruct c as [[] [] [] [] [] [] [] []]; reflexivity. Qed.

Lemma read_quote_char c rest :
  read_literal (quote_char c +:+ rest) = prepend c <$> read_literal rest.
Proof.
  destruct c as [[] [] [] [] [] [] [] []]; reflexivity.
Qed.

Lemma read_quote_chars s rest :
  read_literal (quote_chars s +:+ String "034" rest) = Some (s, rest).
Proof.
  induction s as [|c s IH]; [done|]. cbn [quote_chars].
  by rewrite quote_char_app, read_quote_char, IH.
Qed.

Lemma string_app_assoc (a b c : string) : (a +:+ b) +:+ c = a +:+ (b +:+ c).
Proof. induction a as [|x a IH]; [done|]. exact (f_equal (String x) IH). Qed.

(** The literal of a string, read back, is the string. *)
Lemma read_QuoteJSONString s rest :
  QuoteJSONString s +:+ rest = String "034" (quote_chars s +:+ String "034" rest) ∧
  read_literal (quote_chars s +:+ String "034" rest) = Some (s, rest).
Proof.
  split; [|apply read_quote_chars].
  unfold QuoteJSONString.
  exact (f_equal (String "034") (string_app_assoc _ _ _)).
Qed.

Lemma no_control_app a b : no_control (a +:+ b) = no_control a && no_control b.
Proof.
  induction a as [|x a IH]; [done|].
  transitivity (Nat.leb 32 (nat_of_ascii x) && no_control (a +:+ b)); [done|].
  rewrite IH. apply andb_assoc.
Qed.

Lemma no_control_quote_char c : no_control (quote_char c) = true.
Proof. destruct c as [[] [] [] [] [] [] [] []]; reflexivity. Qed.

Lemma no_control_quote_chars s : no_control (quote_chars s) = true.
Proof.
  induction s as [|c s IH]; [done|]. cbn [quote_chars].
  by rewrite no_control_app, no_control_quote_char, IH.
Qed.

(** X10.  The body of the request determines the selection: two
    selections with the same body are the same, whatever quotes,
    backslashes or control characters they hold. *)
Theorem body_determines_city (p q : payload) :
  body (assess_request p) = body (assess_request q) → p = q.
Proof.
  destruct p as [s], q as [s']. cbn [body assess_request].
  unfold JSON_stringify; cbn [city]. intros Heq.
  assert (QuoteJSONString s +:+ "}" = QuoteJSONString s' +:+ "}") as Hq.
  { by do 3 apply (inj (String.append _)) in Heq. }
  rewrite (proj1 (read_QuoteJSONString s "}")) in Hq.
  rewrite (proj1 (read_QuoteJSONString s' "}")) in Hq.
  injection Hq as Hq. apply (f_equal read_literal) in Hq.
  rewrite !read_quote_chars in Hq. by simplify_eq.
Qed.

(** X11.  Whatever the selection holds, the body of the request holds no
    control character: line feeds, tabs and the like leave the page
    escaped. *)
Theorem body_without_control (p : payload) :
  no_control (body (assess_request p)) = true.
Proof.
  cbn [body assess_request]. unfold JSON_stringify.
  assert (∀ s, no_control (QuoteJSONString s) = true) as Hq.
  { intros s. unfold QuoteJSONString.
    change (String "034" ?x) with (String "034" "" +:+ x).
    by rewrite !no_control_app, no_control_quote_chars. }
  by rewrite !no_control_app, !Hq.
Qed.


(** ** What a click reads *)

Lemma apply_event_value ev (h : heap) id :
  value <$> apply_event ev h !! id = value <$> h !! id.
Proof.
  destruct ev as [i t|i b|i t|i t|i m| | | |]; simpl; try done;
    (destruct (decide (i = id)) as [->|Hne];
     [rewrite lookup_alter_eq; by destruct (h !! id)|by rewrite lookup_alter_ne]).
Qed.

Lemma replay_value evs (h : heap) id : value <$> replay evs h !! id = value <$> h !! id.
Proof.
  revert h. induction evs as [|ev evs IH]; intros h; [done|].
  change (replay (ev :: evs) h) with (replay evs (apply_event ev h)).
  by rewrite IH, apply_event_value.
Qed.

Lemma similar_refl h : similar h h.
Proof. by split. Qed.

Lemma similar_replay evs evs' h h' :
  similar h h' → similar (replay evs h) (replay evs' h').
Proof.
  intros [Hp Hv]. split.
  - intros id. rewrite (replay_present evs h id), (replay_present evs' h' id). apply Hp.
  - by rewrite !replay_value.
Qed.

Lemma stable_ret {A} (a : A) : stable (ret a).
Proof. intros s s' _. exists (Return a), []. by rewrite !extend_nil. Qed.

Lemma stable_throw {A} e : stable (@throw A e).
Proof. intros s s' _. exists (Throw e), []. by rewrite !extend_nil. Qed.

Lemma stable_lift {A} (o : outcome A) : stable (lift o).
Proof. intros s s' _. exists o, []. by rewrite !extend_nil. Qed.

Lemma stable_emit ev : stable (emit ev).
Proof. intros s s' _. by exists (Return tt), [ev]. Qed.

Lemma stable_bind {A B} (m : M A) (k : A → M B) :
  stable m → (∀ a, stable (k a)) → stable (bind m k).
Proof.
  intros Hm Hk s s' Hs. unfold bind.
  destruct (Hm s s' Hs) as ([a|e] & evs & -> & ->).
  - destruct (Hk a (extend s evs) (extend s' evs)) as (r & evs' & -> & ->).
    { by apply similar_replay. }
    exists r, (evs ++ evs'). by rewrite !extend_app.
  - by exists (Throw e), evs.
Qed.

Lemma stable_exists id : stable (exists_ id).
Proof.
  intros s s' [Hp _]. exists (Return (bool_decide (is_Some (doc s !! id)))), [].
  rewrite !extend_nil. split; [done|]. unfold exists_.
  by rewrite (bool_decide_ext _ _ (Hp id)).
Qed.

Lemma stable_write id ev : stable (write id ev).
Proof.
  apply stable_bind; [apply stable_exists|].
  intros []; [apply stable_emit|apply stable_throw].
Qed.

Lemma stable_get_value : stable (get_value citySelect).
Proof.
  intros s s' [Hp Hv]. unfold get_value.
  destruct (doc s !! citySelect) as [el|] eqn:E, (doc s' !! citySelect) as [el'|] eqn:E';
    simpl in Hv; simplify_eq.
  - exists (Return (value el)), []. rewrite !extend_nil. by rewrite Hv.
  - exists (Throw TypeError), []. by rewrite !extend_nil.
Qed.

Lemma stable_try {A} (body : M A) handler cleanup :
  stable body → (∀ e, stable (handler e)) → stable cleanup →
  stable (try_catch_finally body handler cleanup).
Proof.
  intros Hb Hh Hc s s' Hs. unfold try_catch_finally.
  destruct (Hb s s' Hs) as ([a|e] & evs & -> & ->).
  - destruct (Hc (extend s evs) (extend s' evs)) as ([u|e] & evs' & -> & ->);
      [by apply similar_replay|..]; eexists _, (evs ++ evs'); by rewrite !extend_app.
  - destruct (Hh e (extend s evs) (extend s' evs)) as (r & evs1 & -> & ->);
      [by apply similar_replay|].
    destruct (Hc (extend (extend s evs) evs1) (extend (extend s' evs) evs1))
      as ([u|e'] & evs2 & -> & ->);
      [by do 2 apply similar_replay|..];
      eexists _, (evs ++ evs1 ++ evs2); by rewrite !extend_app, <- ?app_assoc.
Qed.

Section Reads.
Context {number : Type}.
Variable Number_toString : number → string.
Variable Number_toBoolean : number → bool.
Variable server : request → fetch_result number.

Local Abbreviation run := (run Number_toString Number_toBoolean server).

Lemma click_stable : stable (click Number_toString Number_toBoolean server).
Proof.
  unfold click, busy_reset, try_block, catch_block, finally_block, show_error,
    show_results, inject_summary, update_field, fetch, json, console_error, alert,
    set_innerText, set_disabled, set_innerHTML, classList_add, classList_remove,
    scrollIntoView.
  repeat first
    [ apply stable_write
    | apply stable_exists
    | apply stable_emit
    | apply stable_lift
    | apply stable_ret
    | apply stable_throw
    | apply stable_get_value
    | apply stable_try
    | apply stable_bind
    | match goal with
      | |- ∀ _, _ => intro
      | |- stable (match ?x with _ => _ end) => destruct x
      | |- stable (if ?x then _ else _) => destruct x
      end ].
Qed.

(** X12.  A click reads the page only for which elements exist and for the
    value of the city selector: on two pages that agree on both it
    completes the same way and performs the same events, whatever text,
    markup, classes or flags the elements hold. *)
Theorem click_reads_little (h h' : heap) :
  similar h h' →
  (run h).1 = (run h').1 ∧ log (run h).2 = log (run h').2.
Proof.
  intros Hs. unfold run.
  destruct (click_stable {| doc := h; log := [] |} {| doc := h'; log := [] |} Hs)
    as (r & evs & -> & ->).
  done.
Qed.
End Reads.


(** ** Clicking again *)

Lemma token_remove_add tok toks :
  token_remove tok (token_add tok toks) = token_remove tok toks.
Proof.
  unfold token_remove, token_add. case_bool_decide; [done|].
  rewrite filter_app, filter_cons_False, filter_nil, app_nil_r; [done|]. by intros ?.
Qed.

Lemma token_remove_idemp tok toks :
  token_remove tok (token_remove tok toks) = token_remove tok toks.
Proof.
  unfold token_remove. induction toks as [|t toks IH]; [done|].
  rewrite filter_cons. case_decide; [|done].
  by rewrite filter_cons_True, IH.
Qed.

(** Writes of summary texts act on an element as its last one. *)
Lemma field_writes_effect writes id :
  Forall field_write writes →
  (∀ h : heap, replay writes h !! id = h !! id) ∨
  (∃ text, ∀ h : heap, replay writes h !! id = with_innerText text <$> h !! id).
Proof.
  induction 1 as [|ev writes (w & text & -> & Hw) _ IH]; [by left|].
  destruct (decide (w = id)) as [->|Hne].
  - right. destruct IH as [IH|[text' IH]].
    + exists text. intros h.
      change (replay (SetInnerText id text :: writes) h)
        with (replay writes (apply_event (SetInnerText id text) h)).
      rewrite IH. simpl. by rewrite lookup_alter_eq.
    + exists text'. intros h.
      change (replay (SetInnerText id text :: writes) h)
        with (replay writes (apply_event (SetInnerText id text) h)).
      rewrite IH. simpl. rewrite lookup_alter_eq. by destruct (h !! id).
  - assert (∀ h : heap, apply_event (SetInnerText w text) h !! id = h !! id) as Hskip
      by (intros h; simpl; by rewrite lookup_alter_ne).
    destruct IH as [IH|[text' IH]]; [left|right; exists text']; intros h;
      change (replay (SetInnerText w text :: writes) h)
        with (replay writes (apply_event (SetInnerText w text) h));
      by rewrite IH, Hskip.
Qed.

Lemma cycle_tail_other tail id :
  cycle_tail tail → id ∈ summary_ids → Forall (λ ev, target ev ≠ Some id) tail.
Proof.
  intros Htail (Hb & Ha & Hd & _)%summary_ids_other.
  destruct Htail as [[m ->]|[[m ->]|[e ->]]];
    unfold reveal_events, catch_events, restore_events; cbn [app];
    list_all; simpl; congruence.
Qed.

Lemma cycle_tail_button tail (y : heap) :
  cycle_tail tail →
  replay tail y !! calcBtn =
    with_disabled false <$> (with_innerText idle_label <$> y !! calcBtn).
Proof.
  intros [[m ->]|[[m ->]|[e ->]]];
    unfold replay, reveal_events, catch_events, restore_events;
    cbn [foldl app apply_event]; by alter_lookup.
Qed.

Lemma cycle_tail_rest tail (y : heap) id :
  cycle_tail tail → id ≠ calcBtn → id ≠ resultArea → id ≠ resultDisplay →
  replay tail y !! id = y !! id.
Proof.
  intros Htail ???. apply replay_other.
  destruct Htail as [[m ->]|[[m ->]|[e ->]]];
    unfold reveal_events, catch_events, restore_events; cbn [app];
    list_all; simpl; congruence.
Qed.

Lemma cycle_tail_area tail :
  cycle_tail tail →
  (∀ y : heap, replay tail y !! resultArea = y !! resultArea) ∨
  (∀ y : heap, replay tail y !! resultArea =
               with_classList (token_remove "hidden") <$> y !! resultArea).
Proof.
  intros [[m ->]|[[m ->]|[e ->]]]; [left|right|left]; intros y;
    unfold replay, reveal_events, catch_events, restore_events;
    cbn [foldl app apply_event]; by alter_lookup.
Qed.

Lemma cycle_tail_display tail :
  cycle_tail tail →
  (∀ y : heap, replay tail y !! resultDisplay = y !! resultDisplay) ∨
  (∃ markup, ∀ y : heap, replay tail y !! resultDisplay =
                         with_innerHTML markup <$> y !! resultDisplay).
Proof.
  intros [[m ->]|[[m ->]|[e ->]]]; [left|right; exists m|left]; intros y;
    unfold replay, reveal_events, catch_events, restore_events;
    cbn [foldl app apply_event]; by alter_lookup.
Qed.

Lemma apply_event_cong ev (y z : heap) id :
  y !! id = z !! id → apply_event ev y !! id = apply_event ev z !! id.
Proof.
  intros Hyz.
  destruct ev as [w ?|w ?|w ?|w ?|w ?|w| | |]; simpl; try done;
    (destruct (decide (w = id)) as [->|?];
     [rewrite !lookup_alter_eq; congruence|by rewrite !lookup_alter_ne]).
Qed.

Lemma replay_cong evs (y z : heap) id :
  y !! id = z !! id → replay evs y !! id = replay evs z !! id.
Proof.
  revert y z. induction evs as [|ev evs IH]; intros y z Hyz; [done|].
  change (replay (ev :: evs) ?x) with (replay evs (apply_event ev x)).
  by apply IH, apply_event_cong.
Qed.

(** The events of a request cycle, performed twice, leave what they leave
    when performed once. *)
Lemma cycle_settles req writes tail :
  Forall field_write writes → cycle_tail tail →
  settles (reset_events ++ Fetch req :: writes ++ tail).
Proof.
  intros Hw Htail h. apply map_eq. intros id.
  destruct (decide (id ∈ summary_ids)) as [Hs|Hs].
  - assert (∀ x : heap, replay (reset_events ++ Fetch req :: writes ++ tail) x !! id
                        = replay writes x !! id) as Hskip.
    { intros x. change (Fetch req :: writes ++ tail) with ([Fetch req] ++ writes ++ tail).
      rewrite !replay_app.
      rewrite replay_other by by apply cycle_tail_other.
      destruct (field_writes_effect writes id Hw) as [E|[text E]];
        rewrite !E; change (replay [Fetch req] ?y) with y;
        by rewrite replay_reset_summary. }
    rewrite Hskip.
    destruct (field_writes_effect writes id Hw) as [E|[text E]];
      rewrite E, Hskip, E; [done|]. by destruct (h !! id).
  - assert (∀ x : heap, replay (reset_events ++ Fetch req :: writes ++ tail) x !! id
                        = replay tail (replay reset_events x) !! id) as Hskip.
    { intros x. change (Fetch req :: writes ++ tail) with ([Fetch req] ++ writes ++ tail).
      rewrite !replay_app. change (replay [Fetch req] ?y) with y.
      apply replay_cong, replay_other. by apply field_writes_other. }
    rewrite Hskip.
    destruct (decide (id = calcBtn)) as [->|Hb];
      [|destruct (decide (id = resultArea)) as [->|Ha];
        [|destruct (decide (id = resultDisplay)) as [->|Hd]]].
    + rewrite !cycle_tail_button, !replay_reset_button, Hskip by done.
      rewrite !cycle_tail_button, !replay_reset_button by done.
      by destruct (h !! calcBtn).
    + destruct (cycle_tail_area tail Htail) as [E|E];
        rewrite !E, !replay_reset_area, Hskip, E, replay_reset_area;
        (destruct (h !! resultArea) as [el|]; [|done]); simpl; f_equal;
        unfold with_classList; simpl; f_equal.
      * apply token_add_idemp.
      * by rewrite !token_remove_add, token_remove_idemp.
    + destruct (cycle_tail_display tail Htail) as [E|[m E]];
        rewrite !E, !replay_reset_display, Hskip, E, replay_reset_display;
        by destruct (h !! resultDisplay).
    + rewrite !cycle_tail_rest, !replay_reset_other, Hskip by done.
      by rewrite !cycle_tail_rest, !replay_reset_other by done.
Qed.

Lemma reset_prefix_settles n : settles (take n reset_events).
Proof.
  intros h. apply map_eq. intros id.
  destruct n as [|[|[|[|n]]]];
    unfold replay, reset_events; cbn [take]; rewrite ?take_nil;
    cbn [foldl apply_event]; try done;
    (destruct (decide (id = calcBtn)) as [->|?];
     [|destruct (decide (id = resultArea)) as [->|?];
       [|destruct (decide (id = resultDisplay)) as [->|?]]]);
    alter_lookup; try done;
    match goal with |- context [h !! ?i] => destruct (h !! i) as [el|] end;
    try done; simpl; f_equal; unfold with_classList; simpl; f_equal;
    apply token_add_idemp.
Qed.

Lemma cycle_cycle_tail {number} ts tb (answer : fetch_result number) pth evs :
  cycle ts tb answer pth evs →
  ∃ writes tail, evs ++ restore_events = writes ++ tail ∧
                 Forall field_write writes ∧ cycle_tail tail.
Proof.
  destruct 1 as [data err message _ _ _ _|data err writes markup _ _ _ Hw|writes e Hw _].
  - exists [], ([Alert ("Alert: " +:+ message)] ++ restore_events).
    split_and!; [done|constructor|left; by eexists].
  - exists writes, (reveal_events markup ++ restore_events).
    split_and!; [by rewrite app_assoc|done|right; left; by eexists].
  - exists writes, (catch_events e ++ restore_events).
    split_and!; [by rewrite app_assoc|done|right; right; by eexists].
Qed.

Section Again.
Context {number : Type}.
Variable Number_toString : number → string.
Variable Number_toBoolean : number → bool.
Variable server : request → fetch_result number.

Local Abbreviation run := (run Number_toString Number_toBoolean server).

Lemma run_settles (h : heap) : settles (log (run h).2).
Proof.
  destruct (h !! calcBtn) as [btn|] eqn:Hb.
  - destruct (click_cases Number_toString Number_toBoolean server h btn Hb)
      as [(area & display & sel & pth & evs & _ & _ & _ & Hcy & ->)
         |(evs & -> & [[_ ->]|[(_ & _ & ->)|(_ & _ & _ & ->)]])]; simpl.
    + destruct (cycle_cycle_tail _ _ _ _ _ Hcy) as (writes & tail & -> & Hw & Htail).
      by apply cycle_settles.
    + apply (reset_prefix_settles 2).
    + apply (reset_prefix_settles 3).
    + apply (reset_prefix_settles 4).
  - rewrite run_without_button by done. by intros ?.
Qed.

(** As a function of the page, the run leaves a page from which it
    gives the same result, the same events and the same page. *)
Lemma run_settled (h : heap) :
  (run (doc (run h).2)).1 = (run h).1 ∧
  log (run (doc (run h).2)).2 = log (run h).2 ∧
  doc (run (doc (run h).2)).2 = doc (run h).2.
Proof.
  destruct (run_well_targeted Number_toString Number_toBoolean server h) as [Hdoc _].
  pose proof (run_settles h) as Hset.
  assert (similar (doc (run h).2) h) as Hs.
  { rewrite Hdoc. apply (similar_replay _ []), similar_refl. }
  destruct (click_stable Number_toString Number_toBoolean server
              {| doc := doc (run h).2; log := [] |} {| doc := h; log := [] |} Hs)
    as (r & evs & E1 & E2).
  assert (run (doc (run h).2) = (r, extend {| doc := doc (run h).2; log := [] |} evs))
    as R1 by exact E1.
  assert (run h = (r, extend {| doc := h; log := [] |} evs)) as R2 by exact E2.
  rewrite R1. rewrite R2 in Hset |- *. cbn [fst snd extend doc log app] in *.
  split_and!; [done|done|]. apply Hset.
Qed.

(** X13.  On a page with the button enabled, the results container, the
    results display and the city selector, a click completes and leaves
    the button enabled, so that it can be clicked again; and the second
    click, when the service answers it as it answered the first, completes
    the same way, performs the same events and leaves every element as
    the first click left it. *)
Theorem click_again (h : heap) btn :
  h !! calcBtn = Some btn → disabled btn = false →
  present resultArea h → present resultDisplay h → present citySelect h →
  let r := run h in
  let r' := run (doc r.2) in
  r.1 = Return tt ∧
  (∃ btn', doc r.2 !! calcBtn = Some btn' ∧ disabled btn' = false) ∧
  r'.1 = r.1 ∧ log r'.2 = log r.2 ∧ doc r'.2 = doc r.2.
Proof.
  intros Hb Hd Pa Pd Pc r r'. subst r r'.
  split; [|split; [|apply run_settled]];
    (destruct (click_cases Number_toString Number_toBoolean server h btn Hb)
       as [(area & display & sel & pth & evs & _ & _ & _ & Hcy & ->)
          |(evs & _ & [[Hn _]|[(_ & Hn & _)|(_ & _ & Hn & _)]])];
     [|unfold present in *; rewrite Hn in *; by destruct Pa, Pd, Pc..]);
    [done|].
  cbn [snd extend doc].
  assert (present calcBtn
            (replay (reset_events ++ Fetch (assess_request {| city := value sel |}) :: evs)
               h)) as [btn1 Hb1].
  { apply replay_present. unfold present. by rewrite Hb. }
  destruct (idle_after_restore _ _ Hb1) as (btn' & Hb' & Hidle & _).
  exists btn'. split; [|done].
  by rewrite app_comm_cons, app_assoc, replay_app.
Qed.
End Again.


(** ** From the load of the page to its clicks *)

Section Page.
Context {number : Type}.
Variable Number_toString : number → string.
Variable Number_toBoolean : number → bool.

Local Abbreviation click := (click Number_toString Number_toBoolean).
Local Abbreviation run := (run Number_toString Number_toBoolean).

(** A click from any state is the run on its document, appended to its
    log. *)
Lemma click_from server (s : state) :
  ∃ r evs, click server s = (r, extend s evs) ∧
           run server (doc s) = (r, {| doc := replay evs (doc s); log := evs |}).
Proof.
  destruct (click_stable Number_toString Number_toBoolean server
              s {| doc := doc s; log := [] |} (similar_refl _))
    as (r & evs & E1 & E2).
  by exists r, evs.
Qed.

Lemma clicks_cons listener server rest (s : state) :
  clicks (number := number) listener (server :: rest) s =
    match dispatch listener server s with
    | (Return d, s') =>
        match clicks listener rest s' with
        | (Return ds, s'') => (Return (d :: ds), s'')
        | (Throw e, s'') => (Throw e, s'')
        end
    | (Throw e, s') => (Throw e, s')
    end.
Proof. done. Qed.

Lemma visit_loaded servers (h : heap) :
  present calcBtn h →
  visit Number_toString Number_toBoolean servers h
    = clicks click servers {| doc := h; log := [] |}.
Proof.
  intros Hb. unfold visit, DOMContentLoaded, bind, exists_; cbn [doc].
  by rewrite bool_decide_eq_true_2 by done.
Qed.

Lemma visit_without_button servers (h : heap) :
  h !! calcBtn = None →
  visit Number_toString Number_toBoolean servers h
    = (Throw TypeError, {| doc := h; log := [] |}).
Proof.
  intros Hb. unfold visit, DOMContentLoaded, bind, exists_; cbn [doc].
  rewrite bool_decide_eq_false_2; [done|]. rewrite Hb. by intros [? ?].
Qed.

Lemma clicks_ignored servers (s : state) :
  (∀ btn, doc s !! calcBtn = Some btn → disabled btn = true) →
  clicks click servers s = (Return (replicate (length servers) Ignored), s).
Proof.
  intros Hd. induction servers as [|server rest IH]; [done|].
  assert (dispatch click server s = (Return Ignored, s)) as E.
  { unfold dispatch. destruct (doc s !! calcBtn) as [btn|] eqn:Hb; [|done].
    by rewrite (Hd btn). }
  by rewrite clicks_cons, E, IH.
Qed.

Lemma dispatch_stuck server (s : state) btn :
  doc s !! calcBtn = Some btn → disabled btn = false →
  ¬ (present resultArea (doc s) ∧ present resultDisplay (doc s) ∧
     present citySelect (doc s)) →
  ∃ evs btn',
    dispatch click server s = (Return (Handled (Throw TypeError)), extend s evs) ∧
    fetches evs = [] ∧ alerts evs = [] ∧ logged_errors evs = [] ∧
    replay evs (doc s) !! calcBtn = Some btn' ∧ busy btn'.
Proof.
  intros Hb Hd Hn. unfold dispatch. rewrite Hb, Hd.
  destruct (click_from server s) as (r & evs & -> & E).
  assert (present calcBtn (doc s)) as Pb by (unfold present; by rewrite Hb).
  destruct (click_abort Number_toString Number_toBoolean server (doc s) Pb Hn)
    as (evs' & Hrun & Hevs).
  rewrite Hrun in E.
  pose proof (f_equal fst E) as Hr. pose proof (f_equal (λ p, log p.2) E) as Hl.
  simpl in Hr, Hl. subst r evs. clear E.
  assert (evs' = take 2 reset_events ∨ evs' = take 3 reset_events ∨ evs' = reset_events)
    as Hshape by (destruct Hevs as [[_ ->]|[(_ & _ & ->)|(_ & _ & _ & ->)]]; tauto).
  destruct (busy_after_reset _ _ _ Hb Hshape) as (btn' & Hb' & Hbusy).
  exists evs', btn'. split_and!; try done;
    by destruct Hshape as [->|[->| ->]].
Qed.

(** X15.  On a page that lacks the button, the results container, the
    results display or the city selector, a visit never issues a request
    and never shows an alert, whatever is clicked and whatever the service
    would answer.  Without the button the load itself throws; otherwise at
    most the first click is handled, it throws a [TypeError], and the
    button it has left disabled and busy takes no further click. *)
Theorem broken_page_never_requests servers (h : heap) :
  ¬ (present calcBtn h ∧ present resultArea h ∧ present resultDisplay h ∧
     present citySelect h) →
  let r := visit Number_toString Number_toBoolean servers h in
  fetches (log r.2) = [] ∧ alerts (log r.2) = [] ∧ logged_errors (log r.2) = [] ∧
  match r.1 with
  | Throw e => e = TypeError ∧ h !! calcBtn = None ∧ log r.2 = []
  | Return ds =>
      ds = replicate (length servers) Ignored ∨
      ∃ btn, ds = Handled (Throw TypeError) :: replicate (length servers - 1) Ignored ∧
             doc r.2 !! calcBtn = Some btn ∧ busy btn
  end.
Proof.
  intros Hn r. subst r.
  destruct (h !! calcBtn) as [btn|] eqn:Hb; [|by rewrite visit_without_button].
  assert (present calcBtn h) as Pb by (unfold present; by rewrite Hb).
  rewrite visit_loaded by done.
  destruct (disabled btn) eqn:Hd.
  { rewrite clicks_ignored; [simpl; tauto|].
    simpl. intros btn0. rewrite Hb. by intros [= <-]. }
  destruct servers as [|server rest]; [simpl; tauto|].
  destruct (dispatch_stuck server {| doc := h; log := [] |} btn Hb Hd)
    as (evs & btn' & E & Hf & Ha & Hl & Hb' & Hbusy); [tauto|].
  rewrite clicks_cons, E, clicks_ignored.
  - cbn [extend log doc app fst snd length].
    replace (S (length rest) - 1) with (length rest) by lia.
    split_and!; [done..|]. right. by exists btn'.
  - intros btn0. cbn [extend doc] in *. rewrite Hb'. intros [= <-]. apply Hbusy.
Qed.
End Page.

(** ** Clicks while a request is pending *)

Lemma cleanups_app evs1 evs2 : cleanups (evs1 ++ evs2) = cleanups evs1 + cleanups evs2.
Proof. unfold cleanups. by rewrite filter_app, length_app. Qed.

Lemma cleanups_other evs :
  Forall (λ ev, target ev ≠ Some calcBtn) evs → cleanups evs = 0.
Proof.
  induction 1 as [|ev evs Hev _ IH]; [done|].
  unfold cleanups in *. rewrite filter_cons_False; [done|].
  intros ->. by apply Hev.
Qed.

Section Pending.
Context {number : Type}.
Variable Number_toString : number → string.
Variable Number_toBoolean : number → bool.

Local Abbreviation click := (click Number_toString Number_toBoolean).
Local Abbreviation cycle := (cycle Number_toString Number_toBoolean).
Local Abbreviation after_fetch := (after_fetch Number_toString Number_toBoolean).
Local Abbreviation settle := (settle Number_toString Number_toBoolean).
Local Abbreviation step := (step Number_toString Number_toBoolean).
Local Abbreviation play := (play Number_toString Number_toBoolean).

(** The listener of the click is its start and, on the answer its request
    gets, its end. *)
Lemma click_start_settle (server : request → fetch_result number) (s : state) :
  click server s =
    match start s with
    | (Return req, s1) => settle (server req) s1
    | (Throw e, s1) => (Throw e, s1)
    end.
Proof.
  unfold click, settle, after_fetch, start, try_block, fetch, try_catch_finally, bind,
    emit, ret.
  destruct (busy_reset s) as [[[]|e] s1]; [|done].
  destruct (get_value citySelect s1) as [[selected|e] s2]; [|done].
  by destruct (server _).
Qed.

Lemma start_ok (s : state) sel :
  present calcBtn (doc s) → present resultArea (doc s) → present resultDisplay (doc s) →
  doc s !! citySelect = Some sel →
  let req := assess_request {| city := value sel |} in
  start s = (Return req, extend s (reset_events ++ [Fetch req])).
Proof.
  intros Hb Ha Hd Hc req. unfold start.
  erewrite bind_return by by apply busy_reset_ok.
  erewrite bind_return; last first.
  { apply get_value_ok. unfold extend; cbn [doc]. by rewrite replay_reset_city. }
  fold req. erewrite bind_return by apply emit_extend. by rewrite extend_app.
Qed.

(** The rest of the body of the [try], by cases. *)
Lemma after_fetch_cases a (s : state) r s' :
  present resultArea (doc s) → present resultDisplay (doc s) →
  after_fetch a s = (r, s') →
  (∃ pth evs,
      (∀ e, pth ≠ Failure e) ∧ cycle a pth evs ∧ r = Return tt ∧ s' = extend s evs) ∨
  (∃ e writes,
      Forall field_write writes ∧ thrown a e writes ∧ r = Throw e ∧ s' = extend s writes).
Proof.
  intros Ha Hd. unfold after_fetch.
  destruct a as [[data|e]|e];
    [|intros [= <- <-]; right; exists e, []; by rewrite extend_nil..].
  unfold json, ret, lift, bind.
  destruct (Get data "error") as [err|e] eqn:He;
    [|intros [= <- <-]; right; exists e, []; by rewrite extend_nil].
  destruct (ToBoolean Number_toBoolean err) eqn:Hb.
  - rewrite (show_error_ok _ _ _ _ He).
    destruct (ToString Number_toString err) as [message|e] eqn:Ht; intros [= <- <-].
    + left. exists (ServerError message), [Alert ("Alert: " +:+ message)].
      split_and!; [done| |done|done]. by eapply cycle_error.
    + right. exists e, []. by rewrite extend_nil.
  - destruct (inject_summary Number_toString data _) as [[[]|e] s1] eqn:Hi;
      destruct (inject_summary_emits _ _ _ _ _ Hi) as (writes & -> & Hw).
    + intros Hr.
      apply show_results_cases in Hr; [|by rewrite !extend_present..].
      destruct Hr as [(markup & -> & ->)|(e & -> & ->)].
      * left. exists (Success markup), (writes ++ reveal_events markup).
        rewrite !extend_app. split_and!; [done| |done|done]. by eapply cycle_success.
      * right. exists e, writes. by repeat split.
    + intros [= <- <-]. right. exists e, writes. by repeat split.
Qed.

(** From the settled request the listener runs one cycle to the cleanup. *)
Lemma settle_ok a (s : state) :
  present calcBtn (doc s) → present resultArea (doc s) → present resultDisplay (doc s) →
  ∃ pth evs,
    cycle a pth evs ∧ settle a s = (Return tt, extend s (evs ++ restore_events)).
Proof.
  intros Hb Ha Hd. unfold settle, try_catch_finally.
  destruct (after_fetch a s) as [r s1] eqn:Ht.
  apply after_fetch_cases in Ht; [|done..].
  destruct Ht as [(pth & evs & _ & Hcy & -> & ->)|(e & writes & Hw & Hth & -> & ->)].
  - exists pth, evs. split; [done|].
    rewrite finally_block_ok by by rewrite !extend_present.
    by rewrite !extend_app.
  - exists (Failure e), (writes ++ catch_events e). split; [by constructor|].
    rewrite catch_block_ok.
    rewrite finally_block_ok by by rewrite !extend_present.
    by rewrite !extend_app, <- ?app_assoc.
Qed.

(** What the end of a listener adds to an orderly page. *)
Lemma settle_effect a (s : state) btn :
  doc s !! calcBtn = Some btn →
  present resultArea (doc s) → present resultDisplay (doc s) →
  ∃ evs btn',
    (settle a s).2 = extend s evs ∧
    fetches evs = [] ∧ cleanups evs = 1 ∧ length (alerts evs) ≤ 1 ∧
    replay evs (doc s) !! calcBtn = Some btn' ∧ disabled btn' = false.
Proof.
  intros Hb Ha Hd.
  destruct (settle_ok a s) as (pth & evs & Hcy & E); [by unfold present; rewrite Hb|done..|].
  destruct (cycle_quiet _ _ _ _ _ Hcy) as (Hf & _ & Ht).
  assert (length (alerts evs) ≤ 1) as Hal.
  { pose proof (cycle_notifications _ _ _ _ _ Hcy) as Hn.
    destruct pth; destruct Hn as [-> _]; simpl; lia. }
  assert (present calcBtn (replay evs (doc s))) as [btn1 Hb1].
  { apply replay_present. unfold present. by rewrite Hb. }
  destruct (idle_after_restore _ _ Hb1) as (btn' & Hb' & Hidle & _).
  exists (evs ++ restore_events), btn'. rewrite E.
  split_and!; [done| | | | |done].
  - by rewrite fetches_app, Hf.
  - by rewrite cleanups_app, (cleanups_other _ Ht).
  - rewrite alerts_app. simpl. rewrite app_nil_r. done.
  - by rewrite replay_app.
Qed.

Lemma orderly_loaded (h : heap) btn :
  h !! calcBtn = Some btn → disabled btn = false →
  present resultArea h → present resultDisplay h → present citySelect h →
  orderly (loaded (number := number) h).
Proof.
  intros Hb Hd Pa Pd Pc. unfold orderly, loaded; cbn [page pending doc log].
  split_and!; try done; try (simpl; lia).
  exists btn. split; [done|]. rewrite Hd. by split.
Qed.

Lemma step_orderly (b : browser number) act :
  orderly b →
  orderly (step b act) ∧
  length (fetches (log (page (step b act))))
    ≤ length (fetches (log (page b))) + (if is_click act then 1 else 0).
Proof.
  intros Hord.
  pose proof Hord as (Pa & Pd & Pc & Hlen & (btn & Hb & Hdis) & Hf & Hal).
  pose proof Pc as [sel Hc].
  destruct b as [s pend]; cbn [page pending] in *.
  destruct act as [|i a|i]; cbn [step page pending is_click].
  - rewrite Hb. destruct (disabled btn) eqn:Hd; [split; [done|simpl; lia]|].
    assert (pend = []) as ->.
    { destruct pend as [|ph pend]; [done|].
      assert (false = true) by by apply Hdis. done. }
    rewrite (start_ok s sel) by (try done; unfold present; by rewrite Hb).
    destruct (busy_after_reset (doc s) btn reset_events Hb) as (btn' & Hb' & Hbusy & _);
      [tauto|].
    unfold orderly; cbn [page pending extend doc log app length].
    rewrite !replay_present, replay_app, !fetches_app, !cleanups_app, !alerts_app,
      !length_app.
    change (replay [Fetch ?q] ?y) with y.
    split; [split_and!; try done|simpl; lia].
    + exists btn'. split; [done|]. by rewrite Hbusy.
    + simpl in *. change (cleanups reset_events) with 0.
      change (cleanups [Fetch _]) with 0. lia.
    + simpl in *. change (cleanups reset_events) with 0.
      change (cleanups [Fetch _]) with 0. lia.
  - destruct pend as [|ph [|ph' pend]]; [split; [done|simpl; lia]| |simpl in Hlen; lia].
    destruct i as [|i]; [|split; [done|simpl; lia]].
    cbn [lookup list_lookup].
    destruct ph as [req|r]; [|split; [done|simpl; lia]].
    destruct a as [r|e].
    + split; [|simpl; lia]. unfold orderly; cbn [page pending].
      split_and!; try done. exists btn. split; [done|].
      split; [done|]. intros _. by apply Hdis.
    + destruct (settle_effect (Rejects e) s btn Hb Pa Pd)
        as (evs & btn' & -> & Hfe & Hce & Hae & Hb' & Hd').
      unfold orderly; cbn [page pending extend doc log delete list_delete length].
      rewrite !replay_present, !fetches_app, !cleanups_app, !alerts_app, !length_app, Hfe.
      split; [split_and!; try done; simpl in *; try lia|simpl; lia].
      exists btn'. split; [done|]. rewrite Hd'. by split.
  - destruct pend as [|ph [|ph' pend]]; [split; [done|simpl; lia]| |simpl in Hlen; lia].
    destruct i as [|i]; [|split; [done|simpl; lia]].
    cbn [lookup list_lookup].
    destruct ph as [req|r]; [split; [done|simpl; lia]|].
    destruct (settle_effect (Resolves r) s btn Hb Pa Pd)
      as (evs & btn' & -> & Hfe & Hce & Hae & Hb' & Hd').
    unfold orderly; cbn [page pending extend doc log delete list_delete length].
    rewrite !replay_present, !fetches_app, !cleanups_app, !alerts_app, !length_app, Hfe.
    split; [split_and!; try done; simpl in *; try lia|simpl; lia].
    exists btn'. split; [done|]. rewrite Hd'. by split.
Qed.

Lemma play_orderly acts (b : browser number) :
  orderly b →
  orderly (play acts b) ∧
  length (fetches (log (page (play acts b))))
    ≤ length (fetches (log (page b))) + clicked acts.
Proof.
  revert b. induction acts as [|act acts IH]; intros b Hord; [split; [done|simpl; lia]|].
  destruct (step_orderly b act Hord) as [Hord1 Hf1].
  destruct (IH _ Hord1) as [Hord2 Hf2].
  split; [exact Hord2|].
  change (play (act :: acts) b) with (play acts (step b act)).
  unfold clicked in *. rewrite filter_cons.
  destruct (is_click act); case_decide; try done; simpl in *; lia.
Qed.

(** X14.  On a page with the button enabled, the results container, the
    results display and the city selector, whatever is clicked and
    whenever, and whether or not requests settle: at most one listener is
    pending at any time and the button is disabled exactly while one is,
    so that a click during a pending request starts nothing; every
    request but a pending one has been followed by the cleanup; there are
    no more requests than clicks and no more alerts than cleanups. *)
Theorem one_request_in_flight acts (h : heap) btn :
  h !! calcBtn = Some btn → disabled btn = false →
  present resultArea h → present resultDisplay h → present citySelect h →
  let b := play acts (loaded h) in
  length (pending b) ≤ 1 ∧
  (∃ btn', doc (page b) !! calcBtn = Some btn' ∧
           (disabled btn' = true ↔ pending b ≠ [])) ∧
  (pending b ≠ [] → step b Click = b) ∧
  length (fetches (log (page b))) = cleanups (log (page b)) + length (pending b) ∧
  length (fetches (log (page b))) ≤ clicked acts ∧
  length (alerts (log (page b))) ≤ cleanups (log (page b)).
Proof.
  intros Hb Hd Pa Pd Pc b. subst b.
  destruct (play_orderly acts (loaded h) (orderly_loaded h btn Hb Hd Pa Pd Pc))
    as [(_ & _ & _ & Hlen & Hbtn & Hf & Hal) Hcl].
  split_and!; try done.
  intros Hp. destruct Hbtn as (btn' & Hb' & Hiff).
  unfold step. rewrite Hb'. by rewrite (proj2 Hiff Hp).
Qed.
End Pending.



(** ** The further properties on the sample pages *)

Lemma mixed_summary_ok (h : heap) data result :
  data = VObject [("weather_summary", mixed_summary); ("result", result)] →
  summary_ok sample_toString h data "n/a" "50" "null" "5,7" "true" "undefined".
Proof.
  intros ->. split; intros _; exists mixed_summary; eexists; by repeat split.
Qed.

Lemma results_shown_witness :
  let r := sample_run (Resolves (JsonBody mixed_response)) sample_page in
  r.1 = Return tt ∧ alerts (log r.2) = [] ∧
  ∃ display', doc r.2 !! resultDisplay = Some display' ∧
              innerHTML display' = "<p>Clear</p>".
Proof.
  intros r.
  destruct (results_shown sample_toString sample_toBoolean
              (answers (Resolves (JsonBody mixed_response))) sample_page
              (with_innerText idle_label blank)
              (with_classList (λ _, ["card"]) blank)
              (with_innerHTML "<p>Rain</p>" blank)
              (city_select "Paris")
              mixed_response VUndefined "n/a" "50" "null" "5,7" "true" "undefined"
              (VString "<p>Clear</p>") "<p>Clear</p>"
              eq_refl eq_refl eq_refl eq_refl eq_refl eq_refl eq_refl
              (mixed_summary_ok _ _ _ eq_refl) eq_refl eq_refl)
    as (H1 & H2 & H3 & _).
  split; [exact H1|]. split; [exact H2|exact H3].
Defined.

Lemma summary_shows_any_witness :
  let r := sample_run (Resolves (JsonBody unprintable_result_response))
             page_without_humidity in
  r.1 = Return tt ∧
  (∃ el', doc r.2 !! wTemp = Some el' ∧ innerText el' = "n/a°C") ∧
  doc r.2 !! wHum = None ∧
  (∃ el', doc r.2 !! wPres = Some el' ∧ innerText el' = "undefined hPa").
Proof.
  intros r.
  destruct (summary_shows_any sample_toString sample_toBoolean
              (answers (Resolves (JsonBody unprintable_result_response)))
              page_without_humidity
              (with_innerText idle_label blank)
              (with_classList (λ _, ["card"]) blank)
              (with_innerHTML "<p>Rain</p>" blank)
              (city_select "Paris")
              unprintable_result_response VUndefined
              "n/a" "50" "null" "5,7" "true" "undefined"
              eq_refl eq_refl eq_refl eq_refl eq_refl eq_refl eq_refl
              (mixed_summary_ok _ _ _ eq_refl))
    as (H1 & H2 & H3 & _ & _ & _ & H7 & _).
  split; [exact H1|]. split; [exact H2|]. split; [exact H3|exact H7].
Defined.

Lemma late_failure_keeps_summary_witness :
  let r := sample_run (Resolves (JsonBody unprintable_result_response)) sample_page in
  alerts (log r.2) = [connection_failed] ∧
  (∃ area', doc r.2 !! resultArea = Some area' ∧ is_hidden area') ∧
  (∃ display', doc r.2 !! resultDisplay = Some display' ∧ innerHTML display' = "").
Proof.
  intros r.
  destruct (late_failure_keeps_summary sample_toString sample_toBoolean
              (answers (Resolves (JsonBody unprintable_result_response))) sample_page
              (with_innerText idle_label blank)
              (with_classList (λ _, ["card"]) blank)
              (with_innerHTML "<p>Rain</p>" blank)
              (city_select "Paris")
              unprintable_result_response VUndefined
              "n/a" "50" "null" "5,7" "true" "undefined" unprintable TypeError
              eq_refl eq_refl eq_refl eq_refl eq_refl eq_refl eq_refl
              (mixed_summary_ok _ _ _ eq_refl) eq_refl eq_refl)
    as (_ & H2 & H3 & H4).
  split; [exact H2|]. split; [exact H3|exact H4].
Defined.

Lemma bare_page_summary w : w ∈ summary_ids → bare_page !! w = None.
Proof.
  rewrite in_summary_ids. intros [->|[->|[->|[->|[->| ->]]]]]; reflexivity.
Qed.

Lemma summary_not_needed_witness :
  let r := sample_run (Resolves (JsonBody result_only_response)) bare_page in
  r.1 = Return tt ∧
  log r.2 = reset_events ++ Fetch (assess_request {| city := "Paris" |}) ::
            reveal_events "<p>Clear</p>" ++ restore_events.
Proof.
  intros r.
  exact (summary_not_needed sample_toString sample_toBoolean
           (answers (Resolves (JsonBody result_only_response))) bare_page
           (with_innerText idle_label blank)
           (with_classList (λ _, ["card"; "hidden"]) blank)
           blank (city_select "Paris")
           result_only_response VUndefined (VString "<p>Clear</p>") "<p>Clear</p>"
           eq_refl eq_refl eq_refl eq_refl bare_page_summary
           eq_refl eq_refl eq_refl eq_refl eq_refl).
Defined.

Lemma sample_page_temp : wTemp ∈ summary_ids ∧ present wTemp sample_page.
Proof. split; [apply in_summary_ids; tauto|by eexists]. Qed.

Lemma missing_summary_fails_witness :
  let r := sample_run (Resolves (JsonBody result_only_response)) sample_page in
  r.1 = Return tt ∧ alerts (log r.2) = [connection_failed] ∧
  doc r.2 !! wTemp = sample_page !! wTemp.
Proof.
  intros r.
  destruct (missing_summary_fails sample_toString sample_toBoolean
              (answers (Resolves (JsonBody result_only_response))) sample_page
              (with_innerText idle_label blank)
              (with_classList (λ _, ["card"]) blank)
              (with_innerHTML "<p>Rain</p>" blank)
              (city_select "Paris")
              result_only_response VUndefined VUndefined wTemp
              eq_refl eq_refl eq_refl eq_refl eq_refl eq_refl eq_refl eq_refl
              (or_introl eq_refl) (proj1 sample_page_temp) (proj2 sample_page_temp))
    as (H1 & _ & H3 & H4).
  split; [exact H1|]. split; [exact H3|]. exact (H4 wTemp (proj1 sample_page_temp)).
Defined.

Lemma unprintable_error_witness :
  let r := sample_run (Resolves (JsonBody unprintable_error_response)) sample_page in
  alerts (log r.2) = [connection_failed] ∧
  logged_errors (log r.2) = [("Fetch error:", TypeError)].
Proof.
  intros r.
  destruct (unprintable_error sample_toString sample_toBoolean
              (answers (Resolves (JsonBody unprintable_error_response))) sample_page
              (with_innerText idle_label blank)
              (with_classList (λ _, ["card"]) blank)
              (with_innerHTML "<p>Rain</p>" blank)
              (city_select "Paris")
              unprintable_error_response unprintable TypeError
              eq_refl eq_refl eq_refl eq_refl eq_refl eq_refl eq_refl eq_refl)
    as (_ & H2 & H3).
  split; [exact H2|exact H3].
Defined.

Lemma body_determines_city_witness :
  body (assess_request {| city := "Par" +:+ "is" |})
    = body (assess_request {| city := "Paris" |}) ∧
  {| city := "Par" +:+ "is" |} = {| city := "Paris" |}.
Proof.
  split; [reflexivity|].
  apply (body_determines_city {| city := "Par" +:+ "is" |} {| city := "Paris" |}).
  reflexivity.
Defined.

Lemma sample_pages_similar : similar sample_page fresh_page.
Proof.
  split; [|reflexivity]. intros id. unfold fresh_page.
  destruct (decide (id = resultArea)) as [->|Ha]; [by split; eexists|].
  rewrite lookup_insert_ne by done.
  destruct (decide (id = resultDisplay)) as [->|Hd]; [by split; eexists|].
  by rewrite lookup_insert_ne by done.
Qed.

Lemma click_reads_little_witness :
  similar sample_page fresh_page ∧
  (sample_run offline sample_page).1 = (sample_run offline fresh_page).1 ∧
  log (sample_run offline sample_page).2 = log (sample_run offline fresh_page).2.
Proof.
  split; [exact sample_pages_similar|].
  exact (click_reads_little sample_toString sample_toBoolean (answers offline)
           sample_page fresh_page sample_pages_similar).
Defined.

Lemma sample_page_core :
  present resultArea sample_page ∧ present resultDisplay sample_page ∧
  present citySelect sample_page.
Proof. repeat split; by eexists. Qed.

Lemma sample_page_handles : resultArea ∈ handles.
Proof. unfold handles. rewrite !elem_of_cons. tauto. Qed.

Lemma flags_and_classes_kept_witness :
  let r := sample_run (Resolves (JsonBody clear_response)) sample_page in
  ∃ area', doc r.2 !! resultArea = Some area' ∧
           kept resultArea (with_classList (λ _, ["card"]) blank) area'.
Proof.
  intros r.
  exact (flags_and_classes_kept sample_toString sample_toBoolean
           (answers (Resolves (JsonBody clear_response))) sample_page
           resultArea (with_classList (λ _, ["card"]) blank)
           sample_page_handles eq_refl).
Defined.

Lemma click_again_witness :
  let r := sample_run (Resolves (JsonBody clear_response)) sample_page in
  let r' := sample_run (Resolves (JsonBody clear_response)) (doc r.2) in
  r.1 = Return tt ∧ r'.1 = r.1 ∧ log r'.2 = log r.2 ∧ doc r'.2 = doc r.2.
Proof.
  intros r r'.
  destruct (click_again sample_toString sample_toBoolean
              (answers (Resolves (JsonBody clear_response))) sample_page
              (with_innerText idle_label blank) eq_refl eq_refl
              (proj1 sample_page_core) (proj1 (proj2 sample_page_core))
              (proj2 (proj2 sample_page_core)))
    as (H1 & _ & H3).
  split; [exact H1|exact H3].
Defined.

Lemma one_request_in_flight_witness :
  let b := sample_play impatient sample_page in
  length (pending b) ≤ 1 ∧
  length (fetches (log (page b))) = cleanups (log (page b)) + length (pending b) ∧
  length (fetches (log (page b))) ≤ 4.
Proof.
  intros b.
  destruct (one_request_in_flight sample_toString sample_toBoolean impatient sample_page
              (with_innerText idle_label blank) eq_refl eq_refl
              (proj1 sample_page_core) (proj1 (proj2 sample_page_core))
              (proj2 (proj2 sample_page_core)))
    as (H1 & _ & _ & H4 & H5 & _).
  split; [exact H1|]. split; [exact H4|exact H5].
Defined.

(** Of the four clicks of [impatient] the second and the third fall into
    the pending request and start nothing: two requests are issued, one
    is still pending at the end, and one result has been shown. *)
Example impatient_scenario :
  let b := sample_play impatient sample_page in
  fetches (log (page b)) =
    [assess_request {| city := "Paris" |}; assess_request {| city := "Paris" |}] ∧
  pending b = [AwaitsFetch (assess_request {| city := "Paris" |})] ∧
  cleanups (log (page b)) = 1 ∧ alerts (log (page b)) = [].
Proof. intros b. by vm_compute. Qed.

(** A request that never settles leaves the button disabled for good. *)
Example unsettled_scenario :
  let b := sample_play [Click; Click; Click] sample_page in
  length (fetches (log (page b))) = 1 ∧
  ∃ btn', doc (page b) !! calcBtn = Some btn' ∧ busy btn'.
Proof. intros b. split; [by vm_compute|]. eexists. split; [by vm_compute|done]. Qed.

Lemma page_without_display_broken :
  ¬ (present calcBtn page_without_display ∧ present resultArea page_without_display ∧
     present resultDisplay page_without_display ∧ present citySelect page_without_display).
Proof. intros (_ & _ & [el Hel] & _). vm_compute in Hel. discriminate Hel. Qed.

Lemma broken_page_never_requests_witness :
  let r := sample_visit [Resolves (JsonBody clear_response); offline]
             page_without_display in
  fetches (log r.2) = [] ∧ alerts (log r.2) = [] ∧ logged_errors (log r.2) = [].
Proof.
  intros r.
  destruct (broken_page_never_requests sample_toString sample_toBoolean
              (answers <$> [Resolves (JsonBody clear_response); offline])
              page_without_display page_without_display_broken)
    as (H1 & H2 & H3 & _).
  split; [exact H1|]. split; [exact H2|exact H3].
Defined.
